(** * Smart Office sensor simulator: a shallow embedding of
      [simulador_smart_office.py] and the properties of its output table.

    Conventions of the embedding.
    - A timestamp is the integer count of nanoseconds since 1970-01-01T00:00
      on the naive (wall-clock) time line, which is the [i8] value pandas
      stores in a [DatetimeIndex]; calendar fields are derived from it.
    - A [float] is read as a real number: the simulator only adds, scales,
      compares, clamps and rounds, and the bounds proved here are reached at
      values ([0], [17], [28], [25]) that binary64 represents exactly.
    - The numpy [Generator] is an interface: a state type with a seeding
      function and the two draws the script uses, each returning the drawn
      value together with the advanced state. *)

From Stdlib Require Import ZArith List Bool String Ascii Reals Lra Lia.
From Stdlib Require Import DecimalString Sorted Permutation.
Import ListNotations.

Local Open Scope Z_scope.

(** ** Timestamps *)

Definition Timestamp := Z.

Definition ns_per_minute : Z := 60 * 1000000000.
Definition ns_per_hour : Z := 60 * ns_per_minute.
Definition ns_per_day : Z := 24 * ns_per_hour.

(** [ts.hour], [ts.minute] and [ts.weekday()] (Monday is 0; the epoch day was
    a Thursday). *)
Definition hour (ts : Timestamp) : Z := (ts / ns_per_hour) mod 24.
Definition minute (ts : Timestamp) : Z := (ts / ns_per_minute) mod 60.
Definition weekday (ts : Timestamp) : Z := (ts / ns_per_day + 3) mod 7.

(** [timedelta(days=days)] *)
Definition timedelta_days (days : Z) : Z := days * ns_per_day.

(** The frequency alias ["15T"]: a fixed stride of fifteen minutes. *)
Definition freq_15T : Z := 15 * ns_per_minute.

(** ** The time grid *)

(** [np.arange(b, e, stride)] for a positive stride: [b + k * stride] for
    every [k] below [ceil ((e - b) / stride)]. *)
Definition arange (b e stride : Z) : list Z :=
  map (fun k => b + Z.of_nat k * stride)
      (seq 0 (Z.to_nat ((e - b + stride - 1) / stride))).

(** pandas' [generate_regular_range]: the points of the closed range. *)
Definition generate_regular_range (start end_ stride : Z) : list Z :=
  let e := start + (end_ - start) / stride * stride + stride / 2 + 1 in
  arange start e stride.

(** [pd.date_range(start, end, freq, inclusive="left")] for a fixed stride.
    pandas builds the closed range and then trims it: when the two end points
    coincide nothing is trimmed unless both sides are open; otherwise an open
    right side drops a last element equal to [end]. *)
Definition date_range_left (start end_ stride : Z) : list Timestamp :=
  let i8values := generate_regular_range start end_ stride in
  if start =? end_ then i8values
  else
    match i8values with
    | [] => i8values
    | _ :: _ =>
        if last i8values 0 =? end_ then removelast i8values else i8values
    end.

Definition generate_time_index (start : Timestamp) (days : Z) (freq : Z)
  : list Timestamp :=
  let end_ := start + timedelta_days days in
  date_range_left start end_ freq.

(** ** Work-hour and night classifiers *)

Definition is_work_hour (ts : Timestamp) : bool :=
  (weekday ts <? 5) && ((8 <=? hour ts) && (hour ts <? 18)).

Definition is_night (ts : Timestamp) : bool :=
  (22 <=? hour ts) || (hour ts <? 6).

(** ** Numeric helpers *)

Local Open Scope R_scope.

(** Python's [max(a, b)] and [min(a, b)] on two arguments: the second one is
    returned only when it is strictly greater (strictly smaller). *)
Definition py_max (a b : R) : R := if Rlt_dec a b then b else a.
Definition py_min (a b : R) : R := if Rlt_dec b a then b else a.

(** [np.rint]: the nearest integer, ties to the even one. *)
Definition rint (x : R) : Z :=
  let n := Int_part x in
  let d := frac_part x in
  if Rlt_dec d (1 / 2) then n
  else if Rlt_dec (1 / 2) d then (n + 1)%Z
  else if Z.even n then n else (n + 1)%Z.

(** [np.round(x, decimals)] for a non-negative number of decimals:
    scale, round to the nearest integer, scale back. *)
Definition np_round (x : R) (decimals : nat) : R :=
  IZR (rint (x * 10 ^ decimals)) / 10 ^ decimals.

(** ** The random generator *)

Class NumpyRandom := {
  Generator : Type;
  (** [np.random.default_rng(seed)] *)
  default_rng : Z -> Generator;
  (** [rng.normal(loc, scale)] *)
  normal : R -> R -> Generator -> R * Generator;
  (** [rng.random()] *)
  random : Generator -> R * Generator
}.

(** Computations that draw from the generator. *)
Definition Rand `{rng : NumpyRandom} (A : Type) : Type := Generator -> A * Generator.

Definition ret `{rng : NumpyRandom} {A : Type} (a : A) : Rand A := fun g => (a, g).

Definition bind `{rng : NumpyRandom} {A B : Type} (m : Rand A) (k : A -> Rand B)
  : Rand B :=
  fun g => let (a, g') := m g in k a g'.

Notation "x <- m ;; k" := (bind m (fun x => k))
  (at level 61, m at next level, right associativity).

(** A [for ts in time_index: ... .append(...)] loop: one sample per
    timestamp, in order, threading the generator. *)
Fixpoint for_each `{rng : NumpyRandom} {A B : Type} (f : A -> Rand B) (l : list A)
  : Rand (list B) :=
  match l with
  | [] => ret []
  | a :: l' => b <- f a ;; bs <- for_each f l' ;; ret (b :: bs)
  end.

(** ** The three sensor models *)

Section Models.
Context `{rng : NumpyRandom}.

(** The daily component of the temperature, before any draw. *)
Definition daily_baseline (ts : Timestamp) : R :=
  let rad := IZR (hour ts * 60 + minute ts) / IZR (24 * 60) * 2 * PI in
  2.5 * sin (rad - PI / 2) + 22.5.

(** The temperature before clamping. *)
Definition temp_raw (ts : Timestamp) : Rand R :=
  let daily := daily_baseline ts in
  daily <- (if is_work_hour ts
            then n <- normal 0 0.2 ;; ret (daily + (0.6 + n))
            else ret daily) ;;
  daily <- (if is_night ts
            then n <- normal 0 0.2 ;; ret (daily - (1.0 + n))
            else ret daily) ;;
  n <- normal 0 0.3 ;;
  ret (daily + n).

Definition temp_sample (ts : Timestamp) : Rand R :=
  val <- temp_raw ts ;;
  ret (py_max 17.0 (py_min 28.0 val)).

Definition lux_sample (ts : Timestamp) : Rand R :=
  base <- (if is_night ts then ret 0.0
           else if is_work_hour ts
                then n <- normal 0 60 ;; ret (500 + n)
                else n <- normal 0 30 ;; ret (py_max 0 (50 + n))) ;;
  ret (py_max 0.0 base).

(** The occupancy probability fixed by the calendar alone. *)
Definition occ_schedule (ts : Timestamp) : R :=
  if (weekday ts <? 5)%Z then
    if ((8 <=? hour ts) && (hour ts <? 18))%Z then 0.85
    else if (((7 <=? hour ts) && (hour ts <? 8))
             || ((18 <=? hour ts) && (hour ts <? 19)))%Z then 0.35
    else 0.05
  else 0.03.

Definition occ_sample (ts : Timestamp) : Rand Z :=
  let p := occ_schedule ts in
  p <- (if ((5 <=? weekday ts) && ((10 <=? hour ts) && (hour ts <? 14)))%Z
        then u <- random ;; ret (if Rlt_dec u 0.06 then 0.7 else p)
        else ret p) ;;
  u <- random ;;
  ret (if Rlt_dec u p then 1%Z else 0%Z).
End Models.

(** ** The long table *)

Record Row := mkRow {
  timestamp : Timestamp;
  sensor_id : string;
  valor : R
}.

Definition DataFrame := list Row.

(** [f"{prefix}_{room_id}"] *)
Definition sensor_label (prefix : string) (room_id : Z) : string :=
  (prefix ++ "_" ++ NilZero.string_of_int (Z.to_int room_id))%string.

(** [pd.DataFrame({"timestamp": ..., "sensor_id": [label] * len, "valor": ...})] *)
Definition frame (time_index : list Timestamp) (label : string)
    (values : list R) : DataFrame :=
  map (fun tv => mkRow (fst tv) label (snd tv)) (combine time_index values).

Section Simulation.
Context `{rng : NumpyRandom}.

(** The three passes, each over the whole grid, on one generator. *)
Definition room_traces (time_index : list Timestamp)
  : Rand (list R * list R * list Z) :=
  temp <- for_each temp_sample time_index ;;
  lux <- for_each lux_sample time_index ;;
  occ <- for_each occ_sample time_index ;;
  ret (temp, lux, occ).

Definition simulate_for_room (room_id : Z) (time_index : list Timestamp)
    (seed_base : Z) : DataFrame :=
  let rng := default_rng (seed_base + room_id) in
  let '(temp, lux, occ) := fst (room_traces time_index rng) in
  let df_temp := frame time_index (sensor_label "temp" room_id)
                       (map (fun v => np_round v 2) temp) in
  let df_lux := frame time_index (sensor_label "lux" room_id)
                      (map (fun v => np_round v 1) lux) in
  let df_occ := frame time_index (sensor_label "occ" room_id)
                      (map IZR occ) in
  df_temp ++ df_lux ++ df_occ.
End Simulation.

(** ** Sorting by (timestamp, sensor_id) *)

(** The row order of [sort_values(["timestamp", "sensor_id"])]: timestamps
    first, then the identifiers as strings. *)
Definition row_leb (r1 r2 : Row) : bool :=
  (timestamp r1 <? timestamp r2)%Z
  || ((timestamp r1 =? timestamp r2)%Z
      && String.leb (sensor_id r1) (sensor_id r2)).

Definition row_le (r1 r2 : Row) : Prop := row_leb r1 r2 = true.

(** The rows of one sensor in a table. *)
Definition rows_of (label : string) (df : DataFrame) : DataFrame :=
  filter (fun r => String.eqb (sensor_id r) label) df.

(** A stable sort: an element is inserted before the elements it ties with,
    and the rows are inserted from the last to the first, so that rows with
    equal keys keep their order. *)
Fixpoint insert_row (r : Row) (l : DataFrame) : DataFrame :=
  match l with
  | [] => [r]
  | x :: l' => if row_leb r x then r :: x :: l' else x :: insert_row r l'
  end.

Fixpoint sort_values (df : DataFrame) : DataFrame :=
  match df with
  | [] => []
  | r :: df' => insert_row r (sort_values df')
  end.

Section Main.
Context `{rng : NumpyRandom}.

(** The body of [main], with the seed and the day count as parameters. *)
Definition build_table (seed_base : Z) (start : Timestamp) (days : Z)
  : DataFrame :=
  let time_index := generate_time_index start days freq_15T in
  let frames :=
    map (fun room => simulate_for_room room time_index seed_base)
        [1; 2; 3]%Z in
  sort_values (List.concat frames).

(** [main(start=start)]: seven days, base seed 2025. *)
Definition main (start : Timestamp) : DataFrame :=
  build_table 2025 start 7.
End Main.

(** ** Reference points and reference behaviour *)

Local Open Scope Z_scope.

(** Monday 2025-01-06 00:00, day 20094 of the epoch. *)
Definition monday_2025_01_06 : Timestamp := 20094 * ns_per_day.

(** 06:00, 12:00 and 15:00 of that Monday. *)
Definition monday_06_00 : Timestamp := monday_2025_01_06 + 6 * ns_per_hour.
Definition monday_12_00 : Timestamp := monday_2025_01_06 + 12 * ns_per_hour.
Definition monday_15_00 : Timestamp := monday_2025_01_06 + 15 * ns_per_hour.

Local Open Scope R_scope.

(** The angle the minute of the day is mapped to. *)
Definition day_angle (ts : Timestamp) : R :=
  IZR (hour ts * 60 + minute ts) / IZR (24 * 60) * 2 * PI.

(** A generator whose standard normal variates all equal [z] and whose
    uniform variates all equal [u]; [normal loc scale] shifts and scales the
    variate as numpy does. *)
Definition fixed_rng (z u : R) : NumpyRandom := {|
  Generator := unit;
  default_rng := fun _ => tt;
  normal := fun loc scale g => (loc + scale * z, g);
  random := fun g => (u, g)
|}.


(** The occupancy rule in the words of the specification: a Bernoulli trial
    of one uniform draw against the resolved probability, where on weekend
    hours in [10, 14) a first draw below 0.06 raises the probability to 0.7
    for that sample. *)
Definition bernoulli (u p : R) : Z := if Rlt_dec u p then 1%Z else 0%Z.

Definition weekday_probability (h : Z) : R :=
  if ((8 <=? h) && (h <? 18))%Z then 0.85
  else if (((7 <=? h) && (h <? 8)) || ((18 <=? h) && (h <? 19)))%Z then 0.35
  else 0.05.

Definition occupancy_by_spec `{rng : NumpyRandom} (ts : Timestamp) : Rand Z :=
  fun g =>
    if (weekday ts <? 5)%Z then
      let (u, g1) := random g in
      (bernoulli u (weekday_probability (hour ts)), g1)
    else if ((10 <=? hour ts) && (hour ts <? 14))%Z then
      let (spike, g1) := random g in
      let p := if Rlt_dec spike 0.06 then 0.7 else 0.03 in
      let (u, g2) := random g1 in
      (bernoulli u p, g2)
    else
      let (u, g1) := random g in
      (bernoulli u 0.03, g1).

(** ** The default anchor and the bookkeeping of draws *)

Local Open Scope Z_scope.

(** The start [main] computes when none is given, from the clock reading
    [today]: back to Monday with [timedelta(days=today.weekday())], then
    [replace(hour=0, minute=0, second=0, microsecond=0)]. *)
Definition default_start (today : Timestamp) : Timestamp :=
  let monday := today - timedelta_days (weekday today) in
  monday - monday mod ns_per_day.

(** [main(start=start)] with [start] possibly [None]. *)
Definition main_at `{rng : NumpyRandom} (start : option Timestamp)
    (today : Timestamp) : DataFrame :=
  main (match start with
        | Some s => s
        | None => default_start today
        end).

(** The number of grid points of the half-open range. *)
Definition grid_size (start end_ stride : Z) : nat :=
  if start =? end_ then 1%nat
  else Z.to_nat ((end_ - start + stride - 1) / stride).

(** The sort key of a row. *)
Definition row_key (r : Row) : Timestamp * string :=
  (timestamp r, sensor_id r).

(** The nine sensor identifiers of a run, room by room. *)
Definition sensor_ids : list string :=
  flat_map (fun room => [sensor_label "temp" room; sensor_label "lux" room;
                         sensor_label "occ" room])
           [1; 2; 3].






Local Open Scope R_scope.


(** * Properties *)

(** ** The time grid *)

Local Open Scope Z_scope.

Lemma arange_points (b q r stride : Z) :
  0 < stride -> 0 <= q -> 0 < r <= stride ->
  arange b (b + q * stride + r) stride =
  map (fun k => b + Z.of_nat k * stride) (seq 0 (S (Z.to_nat q))).
Proof.
  intros Hs Hq Hr. unfold arange.
  replace ((b + q * stride + r - b + stride - 1) / stride) with (q + 1).
  - now rewrite Z2Nat.inj_add, Nat.add_1_r by lia.
  - apply Z.div_unique with (r := r - 1); [lia | ring].
Qed.

Lemma regular_range_closed (start n stride : Z) :
  0 < stride -> 0 <= n ->
  generate_regular_range start (start + n * stride) stride =
  map (fun k => start + Z.of_nat k * stride) (seq 0 (S (Z.to_nat n))).
Proof.
  intros Hs Hn. unfold generate_regular_range.
  replace ((start + n * stride - start) / stride) with n.
  - rewrite <- Z.add_assoc. apply arange_points; try assumption.
    assert (0 <= stride / 2) by (apply Z.div_pos; lia).
    assert (stride / 2 < stride) by (apply Z.div_lt_upper_bound; lia).
    lia.
  - replace (start + n * stride - start) with (n * stride) by ring.
    now rewrite Z.div_mul by lia.
Qed.

Lemma timedelta_days_steps (days : Z) :
  timedelta_days days = (days * 96) * freq_15T.
Proof.
  unfold timedelta_days, freq_15T, ns_per_day, ns_per_hour. ring.
Qed.

Lemma freq_15T_pos : 0 < freq_15T.
Proof. reflexivity. Qed.

(** With at least one day the grid is the arithmetic progression of
    [96 * days] points that starts at [start]. *)
Lemma generate_time_index_points (start days : Z) :
  1 <= days ->
  generate_time_index start days freq_15T =
  map (fun k => start + Z.of_nat k * freq_15T)
      (seq 0 (Z.to_nat (days * 96))).
Proof.
  intros Hd. unfold generate_time_index, date_range_left.
  rewrite timedelta_days_steps.
  rewrite regular_range_closed by (try apply freq_15T_pos; lia).
  pose proof freq_15T_pos as Hf.
  destruct (Z.eqb_spec start (start + days * 96 * freq_15T)) as [E | _];
    [nia |].
  set (n := Z.to_nat (days * 96)).
  rewrite seq_S, map_app. cbn [map Nat.add].
  destruct (map _ (seq 0 n) ++ _) eqn:E.
  - now apply app_eq_nil in E as [_ E].
  - rewrite <- E, last_last, removelast_last.
    subst n. rewrite Z2Nat.id by lia.
    now rewrite Z.eqb_refl.
Qed.

(** With no day at all the two end points coincide and pandas keeps them. *)
Lemma generate_time_index_zero_days (start : Z) :
  generate_time_index start 0 freq_15T = [start].
Proof.
  unfold generate_time_index, date_range_left.
  replace (start + timedelta_days 0) with (start + 0 * freq_15T)
    by (unfold timedelta_days; ring).
  rewrite regular_range_closed by (try apply freq_15T_pos; lia).
  rewrite Z.mul_0_l, Z.add_0_r, Z.eqb_refl. cbn. f_equal. ring.
Qed.

Lemma nth_error_progression (start stride : Z) (n i : nat) :
  (i < n)%nat ->
  nth_error (map (fun k => start + Z.of_nat k * stride) (seq 0 n)) i =
  Some (start + Z.of_nat i * stride).
Proof.
  intros Hi. rewrite nth_error_map, nth_error_seq.
  destruct (Nat.ltb_spec i n); [reflexivity | lia].
Qed.

Lemma in_progression (start stride x : Z) (n : nat) :
  In x (map (fun k => start + Z.of_nat k * stride) (seq 0 n)) <->
  exists k, (k < n)%nat /\ x = start + Z.of_nat k * stride.
Proof.
  rewrite in_map_iff. split.
  - intros (k & <- & Hk). apply in_seq in Hk. exists k. split; [lia | easy].
  - intros (k & Hk & ->). exists k. split; [easy | apply in_seq; lia].
Qed.

Lemma progression_increasing (start stride : Z) (a n : nat) :
  0 < stride ->
  StronglySorted Z.lt
    (map (fun k => start + Z.of_nat k * stride) (seq a n)).
Proof.
  intros Hs. revert a. induction n as [| n IH]; intros a; cbn [seq map].
  - constructor.
  - constructor; [apply IH |].
    apply Forall_forall. intros x Hx.
    apply in_map_iff in Hx as (k & <- & Hk). apply in_seq in Hk. nia.
Qed.

(** C4: for every start instant and every day count [D >= 1] the grid has
    exactly [D * 96] entries, is strictly increasing, consecutive entries
    differ by exactly fifteen minutes, the first entry is the start instant
    and the end instant [start + D days] is not in the grid.  For [D = 0]
    the half-open range breaks down: the grid is the start instant alone,
    which is also the end instant. *)
Theorem time_grid_shape (start days : Z) :
  0 <= days ->
  let grid := generate_time_index start days freq_15T in
  (1 <= days ->
   List.length grid = Z.to_nat (days * 96) /\
   StronglySorted Z.lt grid /\
   (forall i a b,
       nth_error grid i = Some a -> nth_error grid (S i) = Some b ->
       b = a + 15 * ns_per_minute) /\
   nth_error grid 0 = Some start /\
   ~ In (start + timedelta_days days) grid) /\
  (days = 0 -> grid = [start]).
Proof.
  intros Hd grid. split.
  - intros H1. subst grid. rewrite generate_time_index_points by assumption.
    set (n := Z.to_nat (days * 96)).
    assert (Hn : (0 < n)%nat) by (subst n; lia).
    repeat split.
    + now rewrite length_map, length_seq.
    + apply progression_increasing, freq_15T_pos.
    + intros i a b Ha Hb.
      assert (Hi : (S i < n)%nat).
      { pose proof (proj1 (nth_error_Some _ (S i))
                      ltac:(rewrite Hb; discriminate)) as Hb'.
        now rewrite length_map, length_seq in Hb'. }
      rewrite nth_error_progression in Ha, Hb by lia.
      apply (f_equal (fun o => match o with Some v => v | None => 0 end))
        in Ha, Hb.
      cbv beta iota in Ha, Hb. subst a b.
      change (15 * ns_per_minute) with freq_15T.
      rewrite Nat2Z.inj_succ. unfold Z.succ. lia.
    + rewrite nth_error_progression by assumption. f_equal. cbn. ring.
    + rewrite in_progression. intros (k & Hk & E).
      rewrite timedelta_days_steps in E.
      pose proof freq_15T_pos. subst n. nia.
  - intros ->. apply generate_time_index_zero_days.
Qed.

Lemma time_grid_shape_witness :
  0 <= 7 /\
  List.length (generate_time_index monday_2025_01_06 7 freq_15T) = 672%nat.
Proof.
  split; [lia |].
  destruct (time_grid_shape monday_2025_01_06 7) as [Hpos _]; [lia |].
  destruct Hpos as [Hlen _]; [lia |].
  exact Hlen.
Defined.

(** C4 at a day count of zero: the grid holds one entry instead of
    [0 * 96], and that entry is the end instant the range is meant to
    leave out. *)
Lemma time_grid_zero_days_not_empty :
  let grid := generate_time_index monday_2025_01_06 0 freq_15T in
  grid = [monday_2025_01_06] /\
  List.length grid <> Z.to_nat (0 * 96) /\
  In (monday_2025_01_06 + timedelta_days 0) grid.
Proof.
  vm_compute. repeat split; [discriminate | now left].
Qed.

(** ** The classifiers *)

Lemma hour_range (ts : Timestamp) : 0 <= hour ts < 24.
Proof. unfold hour. apply Z.mod_pos_bound. lia. Qed.

Lemma minute_range (ts : Timestamp) : 0 <= minute ts < 60.
Proof. unfold minute. apply Z.mod_pos_bound. lia. Qed.

Lemma weekday_range (ts : Timestamp) : 0 <= weekday ts < 7.
Proof. unfold weekday. apply Z.mod_pos_bound. lia. Qed.

Lemma work_hour_excludes_night (ts : Timestamp) :
  is_work_hour ts = true -> is_night ts = false.
Proof.
  unfold is_work_hour, is_night. intros Hw.
  apply andb_true_iff in Hw as [_ Hw].
  apply andb_true_iff in Hw as [H8 H18].
  apply Z.leb_le in H8. apply Z.ltb_lt in H18.
  apply orb_false_iff. split; [apply Z.leb_gt | apply Z.ltb_ge]; lia.
Qed.

(** C10: no timestamp is both a work hour and a night hour, so a temperature
    sample takes the work-hour uplift, or the night setback, or neither, and
    never both. *)
Theorem work_hour_night_disjoint `{rng : NumpyRandom} (ts : Timestamp)
    (g : Generator) :
  is_work_hour ts && is_night ts = false /\
  temp_raw ts g =
  (if is_work_hour ts then
     let (n1, g1) := normal 0 0.2 g in
     let (n2, g2) := normal 0 0.3 g1 in
     (daily_baseline ts + (0.6 + n1) + n2, g2)
   else if is_night ts then
     let (n1, g1) := normal 0 0.2 g in
     let (n2, g2) := normal 0 0.3 g1 in
     (daily_baseline ts - (1.0 + n1) + n2, g2)
   else
     let (n2, g2) := normal 0 0.3 g in
     (daily_baseline ts + n2, g2))%R.
Proof.
  pose proof (work_hour_excludes_night ts) as Hex.
  unfold temp_raw, bind, ret.
  destruct (is_work_hour ts).
  - rewrite Hex by reflexivity. split; [reflexivity |].
    destruct (normal 0 0.2 g) as [n1 g1].
    now destruct (normal 0 0.3 g1) as [n2 g2].
  - split; [reflexivity |].
    destruct (is_night ts).
    + destruct (normal 0 0.2 g) as [n1 g1].
      now destruct (normal 0 0.3 g1) as [n2 g2].
    + now destruct (normal 0 0.3 g) as [n2 g2].
Qed.

(** ** The temperature baseline *)

Local Open Scope R_scope.

Lemma daily_baseline_cos (ts : Timestamp) :
  daily_baseline ts = 22.5 - 2.5 * cos (day_angle ts).
Proof.
  unfold daily_baseline, day_angle. cbv zeta.
  set (rad := IZR (hour ts * 60 + minute ts) / IZR (24 * 60) * 2 * PI).
  replace (rad - PI / 2) with (- (PI / 2 - rad)) by ring.
  rewrite sin_neg, sin_shift. lra.
Qed.

Lemma minute_of_day_range (ts : Timestamp) :
  (0 <= hour ts * 60 + minute ts < 1440)%Z.
Proof.
  pose proof (hour_range ts). pose proof (minute_range ts). lia.
Qed.

Lemma day_angle_range (ts : Timestamp) : 0 <= day_angle ts < 2 * PI.
Proof.
  unfold day_angle. pose proof (minute_of_day_range ts) as [Hlo Hhi].
  apply IZR_le in Hlo. apply IZR_lt in Hhi.
  set (m := IZR (hour ts * 60 + minute ts)) in *.
  change (IZR (24 * 60)) with 1440.
  pose proof PI_RGT_0 as Hpi.
  clearbody m.
  replace (m / 1440 * 2 * PI) with (m * (PI / 720)) by field.
  assert (Hk : 0 < PI / 720) by (apply Rdiv_lt_0_compat; lra).
  split.
  - apply Rmult_le_pos; lra.
  - replace (2 * PI) with (1440 * (PI / 720)) by field.
    apply Rmult_lt_compat_r; assumption.
Qed.

Lemma cos_minus_one_at_PI (x : R) :
  0 <= x < 2 * PI -> cos x = -1 -> x = PI.
Proof.
  intros [Hlo Hhi] Hc.
  assert (Hs : sin x = 0).
  { pose proof (sin2_cos2 x) as Hsq. rewrite Hc in Hsq.
    unfold Rsqr in Hsq.
    destruct (Rmult_integral (sin x) (sin x)) as [E | E]; [lra | easy..]. }
  destruct (sin_eq_O_2PI_0 x Hlo (Rlt_le _ _ Hhi) Hs) as [E | [E | E]].
  - rewrite E, cos_0 in Hc. lra.
  - exact E.
  - lra.
Qed.

Lemma day_angle_PI_iff (ts : Timestamp) :
  day_angle ts = PI <-> hour ts = 12%Z /\ minute ts = 0%Z.
Proof.
  unfold day_angle. change (IZR (24 * 60)) with 1440.
  pose proof PI_RGT_0 as Hpi. split.
  - intros E.
    assert (Em : IZR (hour ts * 60 + minute ts) = IZR 720).
    { apply Rmult_eq_reg_r with (r := PI / 720).
      - rewrite <- E at 2. field.
      - apply Rgt_not_eq, Rdiv_lt_0_compat; lra. }
    apply eq_IZR in Em.
    pose proof (hour_range ts). pose proof (minute_range ts). lia.
  - intros [Hh Hm]. rewrite Hh, Hm. change (IZR (12 * 60 + 0)) with 720.
    field.
Qed.

Lemma daily_baseline_bounds (ts : Timestamp) :
  20 <= daily_baseline ts <= 25.
Proof.
  rewrite daily_baseline_cos.
  pose proof (COS_bound (day_angle ts)). lra.
Qed.

Lemma daily_baseline_max_iff (ts : Timestamp) :
  daily_baseline ts = 25 <-> hour ts = 12%Z /\ minute ts = 0%Z.
Proof.
  rewrite daily_baseline_cos, <- day_angle_PI_iff. split.
  - intros E. apply cos_minus_one_at_PI; [apply day_angle_range | lra].
  - intros ->. rewrite cos_PI. lra.
Qed.

Lemma baseline_at_monday_noon : daily_baseline monday_12_00 = 25.
Proof. apply daily_baseline_max_iff. split; reflexivity. Qed.

(** At 15:00 the baseline has already come down to about 24.27. *)
Lemma baseline_at_monday_15_00 :
  daily_baseline monday_15_00 = 22.5 + 2.5 / sqrt 2 /\
  daily_baseline monday_15_00 < daily_baseline monday_12_00.
Proof.
  assert (E : daily_baseline monday_15_00 = 22.5 + 2.5 / sqrt 2).
  { rewrite daily_baseline_cos. unfold day_angle.
    replace (hour monday_15_00) with 15%Z by reflexivity.
    replace (minute monday_15_00) with 0%Z by reflexivity.
    change (IZR (15 * 60 + 0)) with 900. change (IZR (24 * 60)) with 1440.
    replace (900 / 1440 * 2 * PI) with (5 * (PI / 4)) by field.
    rewrite cos_5PI4. field. apply sqrt2_neq_0. }
  split; [exact E |].
  rewrite baseline_at_monday_noon.
  pose proof (daily_baseline_bounds monday_15_00) as [_ Hle].
  destruct (Req_dec (daily_baseline monday_15_00) 25) as [E25 | NE]; [| lra].
  apply daily_baseline_max_iff in E25 as [E25 _]. discriminate E25.
Qed.

(** C2: the baseline is [22.5 + 2.5 * sin (angle - PI/2)] with the angle the
    minute of the day scaled to a full turn, so it stays within [20, 25]; its
    daily maximum 25 is reached at 12:00 and at no other time of day, and the
    value at 15:00 is strictly below it. *)
Theorem daily_baseline_peak (ts : Timestamp) :
  daily_baseline ts = 2.5 * sin (day_angle ts - PI / 2) + 22.5 /\
  20 <= daily_baseline ts <= 25 /\
  (daily_baseline ts = 25 <-> hour ts = 12%Z /\ minute ts = 0%Z) /\
  (hour ts = 15%Z -> daily_baseline ts < 25).
Proof.
  split; [reflexivity |].
  split; [apply daily_baseline_bounds |].
  split; [apply daily_baseline_max_iff |].
  intros H15. pose proof (daily_baseline_bounds ts) as [_ Hle].
  destruct (Req_dec (daily_baseline ts) 25) as [E | NE]; [| lra].
  apply daily_baseline_max_iff in E as [E _]. lia.
Qed.

(** ** Clamping and rounding *)

Lemma py_max_lower (a b : R) : a <= py_max a b.
Proof. unfold py_max. destruct (Rlt_dec a b); lra. Qed.

Lemma py_max_upper (a b c : R) : a <= c -> b <= c -> py_max a b <= c.
Proof. unfold py_max. destruct (Rlt_dec a b); lra. Qed.

Lemma py_max_absorb (a b : R) : b <= a -> py_max a b = a.
Proof. unfold py_max. destruct (Rlt_dec a b); lra. Qed.

Lemma py_min_upper (a b : R) : py_min a b <= a.
Proof. unfold py_min. destruct (Rlt_dec b a); lra. Qed.

Lemma clamp_range (v : R) : 17.0 <= py_max 17.0 (py_min 28.0 v) <= 28.0.
Proof.
  split; [apply py_max_lower |].
  apply py_max_upper; [lra | apply py_min_upper].
Qed.

Lemma Int_part_bounds (x : R) :
  IZR (Int_part x) <= x < IZR (Int_part x) + 1.
Proof. destruct (base_Int_part x). lra. Qed.

Lemma rint_choice (x : R) :
  rint x = Int_part x \/ rint x = (Int_part x + 1)%Z.
Proof.
  unfold rint.
  destruct (Rlt_dec _ _); [now left |].
  destruct (Rlt_dec _ _); [now right |].
  destruct (Z.even _); [now left | now right].
Qed.

Lemma rint_lower (x : R) (k : Z) : IZR k <= x -> (k <= rint x)%Z.
Proof.
  intros Hk. destruct (Int_part_bounds x) as [_ Hhi].
  assert (Hlt : (k < Int_part x + 1)%Z).
  { apply lt_IZR. rewrite plus_IZR. lra. }
  destruct (rint_choice x) as [-> | ->]; lia.
Qed.

Lemma rint_upper (x : R) (k : Z) : x <= IZR k -> (rint x <= k)%Z.
Proof.
  intros Hk. destruct (Int_part_bounds x) as [Hlo Hhi].
  assert (Hle : (Int_part x <= k)%Z) by (apply le_IZR; lra).
  destruct (Z.eq_dec (Int_part x) k) as [E | NE].
  - unfold rint, frac_part. rewrite E in *.
    destruct (Rlt_dec (x - IZR k) (1 / 2)); [lia | lra].
  - destruct (rint_choice x) as [-> | ->]; lia.
Qed.

Lemma rint_IZR (k : Z) : rint (IZR k) = k.
Proof.
  apply Z.le_antisymm; [apply rint_upper | apply rint_lower]; lra.
Qed.

Lemma pow10_pos (d : nat) : 0 < 10 ^ d.
Proof. apply pow_lt. lra. Qed.

Lemma np_round_between (x : R) (d : nat) (lo hi : Z) :
  IZR lo <= x * 10 ^ d <= IZR hi ->
  IZR lo / 10 ^ d <= np_round x d <= IZR hi / 10 ^ d.
Proof.
  intros [Hlo Hhi]. unfold np_round, Rdiv.
  pose proof (pow10_pos d) as Hp.
  assert (Hinv : 0 < / 10 ^ d) by now apply Rinv_0_lt_compat.
  split; apply Rmult_le_compat_r; try lra; apply IZR_le.
  - now apply rint_lower.
  - now apply rint_upper.
Qed.

Lemma np_round_zero (d : nat) : np_round 0 d = 0.
Proof.
  unfold np_round. rewrite Rmult_0_l, rint_IZR. unfold Rdiv.
  apply Rmult_0_l.
Qed.

Lemma np_round_temp_range (v : R) :
  17.0 <= v <= 28.0 -> 17.0 <= np_round v 2 <= 28.0.
Proof.
  intros [Hlo Hhi].
  assert (E : 10 ^ 2 = 100) by (simpl; lra).
  destruct (np_round_between v 2 1700 2800) as [H1 H2];
    rewrite E in *; lra.
Qed.

Lemma np_round_nonneg (v : R) (d : nat) : 0 <= v -> 0 <= np_round v d.
Proof.
  intros Hv. pose proof (pow10_pos d) as Hp. unfold np_round.
  apply Rmult_le_pos.
  - apply IZR_le, rint_lower, Rmult_le_pos; lra.
  - apply Rlt_le. now apply Rinv_0_lt_compat.
Qed.

(** ** Passes over the grid *)

Lemma for_each_cons `{rng : NumpyRandom} {A B : Type} (f : A -> Rand B)
    (a : A) (l : list A) (g : Generator) :
  for_each f (a :: l) g =
  (fst (f a g) :: fst (for_each f l (snd (f a g))),
   snd (for_each f l (snd (f a g)))).
Proof.
  cbn [for_each]. unfold bind, ret.
  destruct (f a g) as [b g1]. cbn [fst snd].
  now destruct (for_each f l g1) as [bs g2].
Qed.

Lemma for_each_length `{rng : NumpyRandom} {A B : Type} (f : A -> Rand B)
    (l : list A) (g : Generator) :
  List.length (fst (for_each f l g)) = List.length l.
Proof.
  revert g. induction l as [| a l IH]; intros g; [reflexivity |].
  rewrite for_each_cons. cbn [fst List.length]. now rewrite IH.
Qed.

(** Every element of a pass is the sample of its timestamp at the generator
    state the pass had reached. *)
Lemma for_each_Forall2 `{rng : NumpyRandom} {A B : Type} (f : A -> Rand B)
    (P : A -> B -> Prop) :
  (forall a g, P a (fst (f a g))) ->
  forall l g, Forall2 P l (fst (for_each f l g)).
Proof.
  intros HP l. induction l as [| a l IH]; intros g.
  - constructor.
  - rewrite for_each_cons. cbn [fst]. constructor; [apply HP | apply IH].
Qed.

Lemma room_traces_passes `{rng : NumpyRandom} (time_index : list Timestamp)
    (g : Generator) :
  room_traces time_index g =
  (let (temp, g1) := for_each temp_sample time_index g in
   let (lux, g2) := for_each lux_sample time_index g1 in
   let (occ, g3) := for_each occ_sample time_index g2 in
   ((temp, lux, occ), g3)).
Proof.
  unfold room_traces, bind, ret.
  destruct (for_each temp_sample time_index g) as [temp g1].
  destruct (for_each lux_sample time_index g1) as [lux g2].
  now destruct (for_each occ_sample time_index g2) as [occ g3].
Qed.

(** ** Frames *)

Lemma Forall2_map_right {A B C : Type} (P : A -> B -> Prop)
    (Q : A -> C -> Prop) (f : B -> C) (l : list A) (vs : list B) :
  (forall a b, P a b -> Q a (f b)) ->
  Forall2 P l vs -> Forall2 Q l (map f vs).
Proof.
  intros HPQ HF. induction HF; cbn [map]; constructor; auto.
Qed.

Lemma frame_length (time_index : list Timestamp) (label : string)
    (values : list R) :
  List.length values = List.length time_index ->
  List.length (frame time_index label values) = List.length time_index.
Proof.
  intros E. unfold frame. rewrite length_map, length_combine, E.
  apply Nat.min_id.
Qed.

Lemma frame_Forall (P : Timestamp -> R -> Prop)
    (time_index : list Timestamp) (label : string) (values : list R) :
  Forall2 P time_index values ->
  Forall (fun r => sensor_id r = label /\ P (timestamp r) (valor r))
         (frame time_index label values).
Proof.
  intros HF. unfold frame.
  induction HF; cbn [combine map]; constructor; auto.
Qed.

Lemma frame_labels (time_index : list Timestamp) (label : string)
    (values : list R) :
  Forall (fun r => sensor_id r = label) (frame time_index label values).
Proof.
  unfold frame. apply Forall_forall. intros r Hr.
  apply in_map_iff in Hr as (tv & <- & _). reflexivity.
Qed.

(** The row of a given position, when the values are computed from the
    timestamps alone. *)
Lemma frame_map_row (f : Timestamp -> R) (time_index : list Timestamp)
    (label : string) (ts : Timestamp) :
  In ts time_index ->
  In (mkRow ts label (f ts)) (frame time_index label (map f time_index)).
Proof.
  unfold frame. induction time_index as [| a l IH]; intros Hin.
  - contradiction.
  - cbn [map combine fst snd]. destruct Hin as [-> | Hin].
    + now left.
    + right. now apply IH.
Qed.

(** ** One room *)

Lemma simulate_for_room_unfold `{rng : NumpyRandom} (room_id : Z)
    (time_index : list Timestamp) (seed_base : Z) :
  simulate_for_room room_id time_index seed_base =
  (let g0 := default_rng (seed_base + room_id) in
   let g1 := snd (for_each temp_sample time_index g0) in
   let g2 := snd (for_each lux_sample time_index g1) in
   frame time_index (sensor_label "temp" room_id)
     (map (fun v => np_round v 2) (fst (for_each temp_sample time_index g0)))
   ++ frame time_index (sensor_label "lux" room_id)
        (map (fun v => np_round v 1)
             (fst (for_each lux_sample time_index g1)))
   ++ frame time_index (sensor_label "occ" room_id)
        (map IZR (fst (for_each occ_sample time_index g2))))%Z.
Proof.
  unfold simulate_for_room. rewrite room_traces_passes. cbv zeta.
  destruct (for_each temp_sample time_index _) as [temp g1].
  cbn [fst snd].
  destruct (for_each lux_sample time_index g1) as [lux g2].
  cbn [fst snd].
  now destruct (for_each occ_sample time_index g2) as [occ g3].
Qed.

Lemma simulate_for_room_length `{rng : NumpyRandom} (room_id : Z)
    (time_index : list Timestamp) (seed_base : Z) :
  List.length (simulate_for_room room_id time_index seed_base) =
  (3 * List.length time_index)%nat.
Proof.
  rewrite simulate_for_room_unfold. cbv zeta.
  rewrite !length_app, !frame_length
    by (rewrite length_map; apply for_each_length).
  lia.
Qed.

Lemma sensor_label_temp_lux (room1 room2 : Z) :
  sensor_label "temp" room1 <> sensor_label "lux" room2.
Proof. unfold sensor_label. cbn [append]. discriminate. Qed.

Lemma sensor_label_temp_occ (room1 room2 : Z) :
  sensor_label "temp" room1 <> sensor_label "occ" room2.
Proof. unfold sensor_label. cbn [append]. discriminate. Qed.

Lemma sensor_label_lux_occ (room1 room2 : Z) :
  sensor_label "lux" room1 <> sensor_label "occ" room2.
Proof. unfold sensor_label. cbn [append]. discriminate. Qed.

(** Every row of a room is a temperature, an illuminance or an occupancy row
    whose value is the rounded sample of the row's own timestamp. *)
Lemma simulate_for_room_rows `{rng : NumpyRandom}
    (Pt Pl : Timestamp -> R -> Prop) (Po : Timestamp -> Z -> Prop)
    (room_id : Z) (time_index : list Timestamp) (seed_base : Z) :
  (forall ts g, Pt ts (fst (temp_sample ts g))) ->
  (forall ts g, Pl ts (fst (lux_sample ts g))) ->
  (forall ts g, Po ts (fst (occ_sample ts g))) ->
  forall r, In r (simulate_for_room room_id time_index seed_base) ->
    (sensor_id r = sensor_label "temp" room_id /\
     exists v, Pt (timestamp r) v /\ valor r = np_round v 2) \/
    (sensor_id r = sensor_label "lux" room_id /\
     exists v, Pl (timestamp r) v /\ valor r = np_round v 1) \/
    (sensor_id r = sensor_label "occ" room_id /\
     exists n, Po (timestamp r) n /\ valor r = IZR n).
Proof.
  intros Ht Hl Ho r. rewrite simulate_for_room_unfold. cbv zeta.
  set (g0 := default_rng _).
  set (g1 := snd (for_each temp_sample time_index g0)).
  set (g2 := snd (for_each lux_sample time_index g1)).
  rewrite !in_app_iff. intros [Hr | [Hr | Hr]];
    [left | right; left | right; right].
  - pose proof (for_each_Forall2 temp_sample Pt Ht time_index g0) as HF.
    apply Forall2_map_right
      with (Q := fun ts w => exists v, Pt ts v /\ w = np_round v 2)
           (f := fun v => np_round v 2) in HF; [| now eauto].
    apply frame_Forall with (label := sensor_label "temp" room_id) in HF.
    rewrite Forall_forall in HF. exact (HF r Hr).
  - pose proof (for_each_Forall2 lux_sample Pl Hl time_index g1) as HF.
    apply Forall2_map_right
      with (Q := fun ts w => exists v, Pl ts v /\ w = np_round v 1)
           (f := fun v => np_round v 1) in HF; [| now eauto].
    apply frame_Forall with (label := sensor_label "lux" room_id) in HF.
    rewrite Forall_forall in HF. exact (HF r Hr).
  - pose proof (for_each_Forall2 occ_sample Po Ho time_index g2) as HF.
    apply Forall2_map_right
      with (Q := fun ts w => exists n, Po ts n /\ w = IZR n)
           (f := IZR) in HF; [| now eauto].
    apply frame_Forall with (label := sensor_label "occ" room_id) in HF.
    rewrite Forall_forall in HF. exact (HF r Hr).
Qed.

Lemma frame_has_row (time_index : list Timestamp) (label : string)
    (values : list R) (ts : Timestamp) :
  List.length values = List.length time_index ->
  In ts time_index ->
  exists v, In (mkRow ts label v) (frame time_index label values).
Proof.
  revert values. unfold frame.
  induction time_index as [| a l IH]; intros [| v vs] E Hin;
    try discriminate; try contradiction.
  cbn [combine map fst snd]. destruct Hin as [-> | Hin].
  - exists v. now left.
  - destruct (IH vs) as [w Hw]; [now injection E | assumption |].
    exists w. now right.
Qed.

(** Every timestamp of the grid has its three rows. *)
Lemma simulate_for_room_has_rows `{rng : NumpyRandom} (room_id : Z)
    (time_index : list Timestamp) (seed_base : Z) (ts : Timestamp) :
  In ts time_index ->
  forall kind, In kind ["temp"; "lux"; "occ"]%string ->
  exists v, In (mkRow ts (sensor_label kind room_id) v)
               (simulate_for_room room_id time_index seed_base).
Proof.
  intros Hts kind Hk. rewrite simulate_for_room_unfold. cbv zeta.
  destruct Hk as [<- | [<- | [<- | []]]].
  - destruct (frame_has_row time_index (sensor_label "temp" room_id)
                (map (fun v => np_round v 2)
                   (fst (for_each temp_sample time_index
                           (default_rng (seed_base + room_id)))))
                ts) as [v Hv];
      [rewrite length_map; apply for_each_length | assumption |].
    exists v. apply in_or_app. now left.
  - match goal with
    | |- context [frame time_index (sensor_label "lux" room_id) ?vs] =>
        destruct (frame_has_row time_index (sensor_label "lux" room_id)
                    vs ts) as [v Hv];
          [rewrite length_map; apply for_each_length | assumption |]
    end.
    exists v. apply in_or_app. right. apply in_or_app. now left.
  - match goal with
    | |- context [frame time_index (sensor_label "occ" room_id) ?vs] =>
        destruct (frame_has_row time_index (sensor_label "occ" room_id)
                    vs ts) as [v Hv];
          [rewrite length_map; apply for_each_length | assumption |]
    end.
    exists v. apply in_or_app. right. apply in_or_app. now right.
Qed.

(** ** Single samples *)

Lemma temp_sample_range `{rng : NumpyRandom} (ts : Timestamp)
    (g : Generator) :
  17.0 <= fst (temp_sample ts g) <= 28.0.
Proof.
  unfold temp_sample, bind, ret.
  destruct (temp_raw ts g) as [val g']. cbn [fst]. apply clamp_range.
Qed.

Lemma lux_sample_nonneg `{rng : NumpyRandom} (ts : Timestamp)
    (g : Generator) :
  0 <= fst (lux_sample ts g).
Proof.
  unfold lux_sample, bind, ret.
  destruct (if is_night ts then _ else _) as [base g']. cbn [fst].
  pose proof (py_max_lower 0.0 base). lra.
Qed.

Lemma lux_sample_night `{rng : NumpyRandom} (ts : Timestamp)
    (g : Generator) :
  is_night ts = true -> lux_sample ts g = (0, g).
Proof.
  intros Hn. unfold lux_sample, bind, ret. rewrite Hn.
  rewrite py_max_absorb by lra. f_equal. lra.
Qed.

(** By day and outside work hours a draw of fifty or more below the mean
    brings the level to the floor. *)
Lemma lux_sample_floor `{rng : NumpyRandom} (ts : Timestamp)
    (g : Generator) :
  is_night ts = false -> is_work_hour ts = false ->
  fst (normal 0 30 g) <= -50 ->
  fst (lux_sample ts g) = 0.
Proof.
  intros Hn Hw Hdraw. unfold lux_sample, bind, ret. rewrite Hn, Hw.
  destruct (normal 0 30 g) as [n g']. cbn [fst] in *.
  rewrite (py_max_absorb 0 (50 + n)) by lra.
  rewrite py_max_absorb by lra. lra.
Qed.

Lemma occ_sample_spec `{rng : NumpyRandom} (ts : Timestamp)
    (g : Generator) :
  occ_sample ts g = occupancy_by_spec ts g.
Proof.
  unfold occ_sample, occupancy_by_spec, occ_schedule, weekday_probability,
    bernoulli, bind, ret.
  destruct (Z.ltb_spec (weekday ts) 5) as [Hw | Hw].
  - replace (5 <=? weekday ts)%Z with false by (symmetry; apply Z.leb_gt; lia).
    cbn [andb]. now destruct (random g) as [u g1].
  - replace (5 <=? weekday ts)%Z with true by (symmetry; apply Z.leb_le; lia).
    cbn [andb].
    destruct ((10 <=? hour ts)%Z && (hour ts <? 14)%Z).
    + destruct (random g) as [spike g1].
      now destruct (random g1) as [u g2].
    + now destruct (random g) as [u g1].
Qed.

Lemma occ_sample_binary `{rng : NumpyRandom} (ts : Timestamp)
    (g : Generator) :
  fst (occ_sample ts g) = 0%Z \/ fst (occ_sample ts g) = 1%Z.
Proof.
  unfold occ_sample, bind, ret.
  destruct (if (_ && _)%bool then _ else _) as [p g1].
  destruct (random g1) as [u g2]. cbn [fst].
  destruct (Rlt_dec u p); [now right | now left].
Qed.

(** ** The values a room emits *)

(** C3: every temperature row a room emits, whatever the grid, the seed and
    the draws, carries a value between 17.0 and 28.0 after clamping and
    rounding to two decimals. *)
Theorem temperature_in_range `{rng : NumpyRandom} (room_id : Z)
    (time_index : list Timestamp) (seed_base : Z) (r : Row) :
  In r (simulate_for_room room_id time_index seed_base) ->
  sensor_id r = sensor_label "temp" room_id ->
  17.0 <= valor r <= 28.0.
Proof.
  intros Hr Hid.
  destruct (simulate_for_room_rows
              (fun _ v => 17.0 <= v <= 28.0) (fun _ _ => True)
              (fun _ _ => True) room_id time_index seed_base
              temp_sample_range (fun _ _ => I) (fun _ _ => I) r Hr)
    as [(_ & v & Hv & ->) | [(Hid' & _) | (Hid' & _)]].
  - now apply np_round_temp_range.
  - rewrite Hid in Hid'. now apply sensor_label_temp_lux in Hid'.
  - rewrite Hid in Hid'. now apply sensor_label_temp_occ in Hid'.
Qed.

(** C6: an occupancy sample is the Bernoulli trial the specification words
    describe, drawn from the same generator states; every occupancy row a
    room emits carries 0 or 1, and its value is that trial for the row's own
    timestamp at the generator state the pass had reached. *)
Theorem occupancy_is_bernoulli `{rng : NumpyRandom} (room_id : Z)
    (time_index : list Timestamp) (seed_base : Z) :
  (forall ts g, occ_sample ts g = occupancy_by_spec ts g) /\
  (forall r, In r (simulate_for_room room_id time_index seed_base) ->
             sensor_id r = sensor_label "occ" room_id ->
             (valor r = 0 \/ valor r = 1) /\
             exists g,
               valor r = IZR (fst (occupancy_by_spec (timestamp r) g))).
Proof.
  split; [apply occ_sample_spec |].
  intros r Hr Hid.
  destruct (simulate_for_room_rows
              (fun _ _ => True) (fun _ _ => True)
              (fun ts n => (n = 0%Z \/ n = 1%Z) /\
                           exists g, n = fst (occupancy_by_spec ts g))
              room_id time_index seed_base
              (fun _ _ => I) (fun _ _ => I)) with (r := r)
    as [(Hid' & _) | [(Hid' & _) | (_ & n & [Hn [g Hg]] & ->)]].
  - intros ts g. split; [apply occ_sample_binary |].
    exists g. now rewrite occ_sample_spec.
  - exact Hr.
  - rewrite Hid in Hid'. symmetry in Hid'.
    now apply sensor_label_temp_occ in Hid'.
  - rewrite Hid in Hid'. symmetry in Hid'.
    now apply sensor_label_lux_occ in Hid'.
  - split.
    + destruct Hn as [-> | ->]; [now left | now right].
    + exists g. now rewrite Hg.
Qed.

(** ** Sorting *)

Lemma string_leb_refl (s : string) : String.leb s s = true.
Proof. destruct (String.leb_total s s); assumption. Qed.

Lemma string_compare_trans (c : comparison) (s1 s2 s3 : string) :
  String.compare s1 s2 = c -> String.compare s2 s3 = c ->
  String.compare s1 s3 = c.
Proof.
  revert s2 s3. induction s1 as [| a1 s1 IH]; intros [| a2 s2] [| a3 s3];
    cbn [String.compare]; try congruence.
  unfold Ascii.compare.
  destruct (N.compare_spec (N_of_ascii a1) (N_of_ascii a2)) as [E12 | L12 | L12];
    destruct (N.compare_spec (N_of_ascii a2) (N_of_ascii a3)) as [E23 | L23 | L23];
    destruct (N.compare_spec (N_of_ascii a1) (N_of_ascii a3)) as [E13 | L13 | L13];
    try congruence; try lia; try (apply IH).
Qed.

Lemma string_leb_trans (s1 s2 s3 : string) :
  String.leb s1 s2 = true -> String.leb s2 s3 = true ->
  String.leb s1 s3 = true.
Proof.
  unfold String.leb. intros H12 H23.
  destruct (String.compare s1 s2) eqn:E12; try discriminate;
    destruct (String.compare s2 s3) eqn:E23; try discriminate.
  - apply String.compare_eq_iff in E12, E23. subst.
    exact (string_leb_refl s3).
  - apply String.compare_eq_iff in E12. subst. now rewrite E23.
  - apply String.compare_eq_iff in E23. subst. now rewrite E12.
  - now rewrite (string_compare_trans Lt s1 s2 s3).
Qed.

Lemma row_leb_total (r1 r2 : Row) :
  row_leb r1 r2 = false -> row_leb r2 r1 = true.
Proof.
  unfold row_leb. intros Hf.
  apply orb_false_iff in Hf as [Hlt Heq]. apply Z.ltb_ge in Hlt.
  destruct (Z.ltb_spec (timestamp r2) (timestamp r1)) as [L | L];
    [reflexivity |].
  assert (E : timestamp r1 = timestamp r2) by lia.
  rewrite E, Z.eqb_refl in *. cbn [andb orb] in *.
  destruct (String.leb_total (sensor_id r1) (sensor_id r2)); congruence.
Qed.

Lemma row_le_trans (r1 r2 r3 : Row) :
  row_le r1 r2 -> row_le r2 r3 -> row_le r1 r3.
Proof.
  unfold row_le, row_leb. intros H12 H23.
  apply orb_true_iff in H12, H23. apply orb_true_iff.
  destruct H12 as [L12 | E12], H23 as [L23 | E23];
    try apply Z.ltb_lt in L12; try apply Z.ltb_lt in L23;
    try (apply andb_true_iff in E12 as [E12 S12]; apply Z.eqb_eq in E12);
    try (apply andb_true_iff in E23 as [E23 S23]; apply Z.eqb_eq in E23).
  - left. apply Z.ltb_lt. lia.
  - left. apply Z.ltb_lt. lia.
  - left. apply Z.ltb_lt. lia.
  - right. apply andb_true_iff. split.
    + apply Z.eqb_eq. lia.
    + exact (string_leb_trans _ _ _ S12 S23).
Qed.

Lemma insert_row_perm (r : Row) (l : DataFrame) :
  Permutation (r :: l) (insert_row r l).
Proof.
  induction l as [| x l IH]; cbn [insert_row]; [reflexivity |].
  destruct (row_leb r x); [reflexivity |].
  rewrite perm_swap. now constructor.
Qed.

Lemma sort_values_perm (df : DataFrame) : Permutation df (sort_values df).
Proof.
  induction df as [| r df IH]; cbn [sort_values]; [constructor |].
  rewrite <- insert_row_perm. now constructor.
Qed.

Lemma insert_row_sorted (r : Row) (l : DataFrame) :
  StronglySorted row_le l -> StronglySorted row_le (insert_row r l).
Proof.
  induction 1 as [| x l Hs IH Hx]; cbn [insert_row].
  - repeat constructor.
  - destruct (row_leb r x) eqn:E.
    + constructor; [now constructor |].
      constructor; [exact E |].
      apply Forall_forall. intros y Hy. rewrite Forall_forall in Hx.
      exact (row_le_trans _ _ _ E (Hx y Hy)).
    + apply row_leb_total in E.
      constructor; [exact IH |].
      apply Forall_forall. intros y Hy.
      apply (Permutation_in _ (Permutation_sym (insert_row_perm r l))) in Hy.
      destruct Hy as [<- | Hy]; [exact E |].
      rewrite Forall_forall in Hx. now apply Hx.
Qed.

Lemma sort_values_sorted (df : DataFrame) :
  StronglySorted row_le (sort_values df).
Proof.
  induction df as [| r df IH]; cbn [sort_values];
    [constructor | now apply insert_row_sorted].
Qed.

Lemma sorted_positions {A : Type} (R : A -> A -> Prop) (l : list A) :
  StronglySorted R l ->
  forall i j a b, (i < j)%nat ->
    nth_error l i = Some a -> nth_error l j = Some b -> R a b.
Proof.
  induction 1 as [| x l Hs IH Hx]; intros i j a b Hij Ha Hb.
  - now destruct i.
  - destruct j as [| j]; [lia |]. cbn [nth_error] in Hb.
    destruct i as [| i]; cbn [nth_error] in Ha.
    + injection Ha as <-. rewrite Forall_forall in Hx.
      apply Hx. now apply nth_error_In in Hb.
    + apply (IH i j); [lia | assumption..].
Qed.

(** ** The table *)

Lemma build_table_perm `{rng : NumpyRandom} (seed_base : Z)
    (start : Timestamp) (days : Z) :
  let time_index := generate_time_index start days freq_15T in
  Permutation
    (simulate_for_room 1 time_index seed_base
     ++ simulate_for_room 2 time_index seed_base
     ++ simulate_for_room 3 time_index seed_base)
    (build_table seed_base start days).
Proof.
  unfold build_table. cbn [map List.concat]. rewrite app_nil_r.
  apply sort_values_perm.
Qed.

Lemma in_build_table `{rng : NumpyRandom} (seed_base : Z)
    (start : Timestamp) (days : Z) (r : Row) :
  In r (build_table seed_base start days) <->
  exists room, In room [1; 2; 3]%Z /\
    In r (simulate_for_room room
            (generate_time_index start days freq_15T) seed_base).
Proof.
  pose proof (build_table_perm seed_base start days) as HP. cbv zeta in HP.
  split.
  - intros Hr. apply (Permutation_in _ (Permutation_sym HP)) in Hr.
    rewrite !in_app_iff in Hr.
    destruct Hr as [Hr | [Hr | Hr]];
      [exists 1%Z | exists 2%Z | exists 3%Z]; cbn [In]; auto.
  - intros (room & Hroom & Hr). apply (Permutation_in _ HP).
    rewrite !in_app_iff.
    destruct Hroom as [<- | [<- | [<- | []]]]; auto.
Qed.

Lemma build_table_length `{rng : NumpyRandom} (seed_base : Z)
    (start : Timestamp) (days : Z) :
  List.length (build_table seed_base start days) =
  (3 * (3 * List.length (generate_time_index start days freq_15T)))%nat.
Proof.
  pose proof (build_table_perm seed_base start days) as HP. cbv zeta in HP.
  rewrite <- (Permutation_length HP), !length_app,
    !simulate_for_room_length.
  lia.
Qed.

Lemma week_grid_length (start : Timestamp) :
  List.length (generate_time_index start 7 freq_15T) = 672%nat.
Proof.
  rewrite generate_time_index_points by lia.
  now rewrite length_map, length_seq.
Qed.

Lemma filter_perm_length {A : Type} (p : A -> bool) (l1 l2 : list A) :
  Permutation l1 l2 ->
  List.length (filter p l1) = List.length (filter p l2).
Proof.
  induction 1 as [| x l1 l2 HP IH | x y l | l1 l2 l3 H12 IH12 H23 IH23];
    cbn [filter].
  - reflexivity.
  - destruct (p x); cbn [List.length]; now rewrite IH.
  - destruct (p x), (p y); reflexivity.
  - now rewrite IH12.
Qed.

Lemma filter_frame (label label' : string) (time_index : list Timestamp)
    (values : list R) :
  filter (fun r => String.eqb (sensor_id r) label)
         (frame time_index label' values) =
  if String.eqb label' label then frame time_index label' values else [].
Proof.
  pose proof (frame_labels time_index label' values) as HF.
  induction HF as [| r l Hr HF IH]; cbn [filter].
  - now destruct (String.eqb label' label).
  - rewrite IH, Hr. now destruct (String.eqb label' label).
Qed.

Lemma rows_of_room `{rng : NumpyRandom} (label : string) (room_id : Z)
    (time_index : list Timestamp) (seed_base : Z) :
  List.length (rows_of label
                 (simulate_for_room room_id time_index seed_base)) =
  ((if String.eqb (sensor_label "temp" room_id) label
    then List.length time_index else 0)
   + ((if String.eqb (sensor_label "lux" room_id) label
       then List.length time_index else 0)
      + (if String.eqb (sensor_label "occ" room_id) label
         then List.length time_index else 0)))%nat.
Proof.
  unfold rows_of. rewrite simulate_for_room_unfold. cbv zeta.
  rewrite !filter_app, !length_app, !filter_frame.
  repeat match goal with
  | |- context [if String.eqb ?a ?b then _ else _] =>
      destruct (String.eqb a b)
  end;
  rewrite ?frame_length by (rewrite length_map; apply for_each_length);
  reflexivity.
Qed.

(** C7: a 7-day run over the three rooms yields exactly 6048 rows, namely
    672 rows for each of the nine (sensor type, room) pairs. *)
Theorem week_table_row_count `{rng : NumpyRandom} (start : Timestamp) :
  Z.of_nat (List.length (main start)) = 6048%Z /\
  List.length (main start) = (672 * 3 * 3)%nat /\
  forall kind room,
    In kind ["temp"; "lux"; "occ"]%string -> In room [1; 2; 3]%Z ->
    List.length (rows_of (sensor_label kind room) (main start)) = 672%nat.
Proof.
  assert (Hlen : List.length (main start) = (672 * 3 * 3)%nat).
  { unfold main. now rewrite build_table_length, week_grid_length. }
  split; [now rewrite Hlen |]. split; [exact Hlen |].
  intros kind room Hk Hroom. unfold main, rows_of.
  pose proof (build_table_perm 2025 start 7) as HP. cbv zeta in HP.
  rewrite <- (filter_perm_length _ _ _ HP), !filter_app, !length_app.
  fold (rows_of (sensor_label kind room)
          (simulate_for_room 1 (generate_time_index start 7 freq_15T) 2025)).
  fold (rows_of (sensor_label kind room)
          (simulate_for_room 2 (generate_time_index start 7 freq_15T) 2025)).
  fold (rows_of (sensor_label kind room)
          (simulate_for_room 3 (generate_time_index start 7 freq_15T) 2025)).
  rewrite !rows_of_room, week_grid_length.
  destruct Hk as [<- | [<- | [<- | []]]];
    destruct Hroom as [<- | [<- | [<- | []]]]; reflexivity.
Qed.

(** C8: in the table of a run the timestamps never decrease from one row to
    a later one, and of two rows with the same timestamp the one whose
    sensor identifier is smaller as a string comes first. *)
Theorem table_sorted `{rng : NumpyRandom} (seed_base : Z)
    (start : Timestamp) (days : Z) (i j : nat) (ri rj : Row) :
  nth_error (build_table seed_base start days) i = Some ri ->
  nth_error (build_table seed_base start days) j = Some rj ->
  ((i <= j)%nat -> (timestamp ri <= timestamp rj)%Z) /\
  (timestamp ri = timestamp rj ->
   String.ltb (sensor_id ri) (sensor_id rj) = true -> (i < j)%nat).
Proof.
  intros Hi Hj.
  pose proof (sorted_positions row_le _
                (sort_values_sorted _ : StronglySorted row_le
                                          (build_table seed_base start days)))
    as Hs.
  assert (Hts : forall a b, row_le a b -> (timestamp a <= timestamp b)%Z).
  { unfold row_le, row_leb. intros a b Hab.
    apply orb_true_iff in Hab as [L | E].
    - apply Z.ltb_lt in L. lia.
    - apply andb_true_iff in E as [E _]. apply Z.eqb_eq in E. lia. }
  split.
  - intros Hij. destruct (Nat.eq_dec i j) as [-> | NE].
    + rewrite Hi in Hj. injection Hj as <-. lia.
    + apply Hts, (Hs i j); [lia | assumption..].
  - intros Ets Hlt.
    destruct (Nat.lt_trichotomy i j) as [L | [E | G]]; [exact L | |].
    + subst j. rewrite Hi in Hj. injection Hj as <-.
      unfold String.ltb in Hlt.
      destruct (String.compare (sensor_id ri) (sensor_id ri)) eqn:C;
        try discriminate.
      pose proof (string_leb_refl (sensor_id ri)) as Hr.
      unfold String.leb in Hr. rewrite String.compare_antisym, C in Hr.
      discriminate.
    + pose proof (Hs j i rj ri G Hj Hi) as Hji.
      unfold row_le, row_leb in Hji. rewrite Ets, Z.ltb_irrefl, Z.eqb_refl in Hji.
      cbn [orb andb] in Hji. unfold String.leb in Hji. unfold String.ltb in Hlt.
      rewrite String.compare_antisym in Hji.
      destruct (String.compare (sensor_id ri) (sensor_id rj));
        discriminate.
Qed.

(** ** Illuminance *)

(** C1 (amended): every illuminance row a room emits carries a value that
    is at least 0, and the value is exactly 0 whenever the row's timestamp is
    a night hour. *)
Theorem illuminance_night_zero `{rng : NumpyRandom} (room_id : Z)
    (time_index : list Timestamp) (seed_base : Z) (r : Row) :
  In r (simulate_for_room room_id time_index seed_base) ->
  sensor_id r = sensor_label "lux" room_id ->
  0 <= valor r /\ (is_night (timestamp r) = true -> valor r = 0).
Proof.
  intros Hr Hid.
  destruct (simulate_for_room_rows
              (fun _ _ => True)
              (fun ts v => 0 <= v /\ (is_night ts = true -> v = 0))
              (fun _ _ => True) room_id time_index seed_base
              (fun _ _ => I)) with (r := r)
    as [(Hid' & _) | [(_ & v & [Hv Hn] & ->) | (Hid' & _)]].
  - intros ts g. split; [apply lux_sample_nonneg |].
    intros Hn. now rewrite lux_sample_night.
  - exact (fun _ _ => I).
  - exact Hr.
  - rewrite Hid in Hid'. symmetry in Hid'.
    now apply sensor_label_temp_lux in Hid'.
  - split; [now apply np_round_nonneg |].
    intros Hnight. rewrite (Hn Hnight). apply np_round_zero.
  - rewrite Hid in Hid'. now apply sensor_label_lux_occ in Hid'.
Qed.

(** *** A run with fixed variates *)

Lemma fixed_rng_for_each (z u : R) {A B : Type}
    (f : A -> Rand (rng := fixed_rng z u) B) (l : list A) :
  for_each f l tt = (map (fun a => fst (f a tt)) l, tt).
Proof.
  induction l as [| a l IH]; [reflexivity |].
  rewrite for_each_cons. cbn [map].
  destruct (snd (f a tt)). now rewrite IH.
Qed.

Lemma fixed_rng_room (z u : R) (room_id : Z) (time_index : list Timestamp)
    (seed_base : Z) :
  simulate_for_room (rng := fixed_rng z u) room_id time_index seed_base =
  frame time_index (sensor_label "temp" room_id)
    (map (fun ts => np_round (fst (temp_sample (rng := fixed_rng z u) ts tt)) 2) time_index)
  ++ frame time_index (sensor_label "lux" room_id)
       (map (fun ts => np_round (fst (lux_sample (rng := fixed_rng z u) ts tt)) 1) time_index)
  ++ frame time_index (sensor_label "occ" room_id)
       (map (fun ts => IZR (fst (occ_sample (rng := fixed_rng z u) ts tt))) time_index).
Proof.
  rewrite simulate_for_room_unfold. cbv zeta.
  change (@default_rng (fixed_rng z u) (seed_base + room_id)%Z) with tt.
  generalize (@temp_sample (fixed_rng z u)) (@lux_sample (fixed_rng z u))
    (@occ_sample (fixed_rng z u)).
  intros ft fl fo.
  rewrite (fixed_rng_for_each z u ft). cbn [fst snd].
  rewrite (fixed_rng_for_each z u fl). cbn [fst snd].
  rewrite (fixed_rng_for_each z u fo). cbn [fst snd].
  now rewrite !map_map.
Qed.

Lemma week_grid_has (start : Timestamp) (k : nat) :
  (k < 672)%nat ->
  In (start + Z.of_nat k * freq_15T)%Z
     (generate_time_index start 7 freq_15T).
Proof.
  intros Hk. rewrite generate_time_index_points by lia.
  apply in_progression. exists k. split; [exact Hk | reflexivity].
Qed.

Lemma fixed_rng_lux_row (z u : R) (ts : Timestamp) :
  In ts (generate_time_index monday_2025_01_06 7 freq_15T) ->
  In (mkRow ts (sensor_label "lux" 1)
        (np_round (fst (lux_sample (rng := fixed_rng z u) ts tt)) 1))
     (main (rng := fixed_rng z u) monday_2025_01_06).
Proof.
  intros Hts. unfold main.
  apply (proj2 (in_build_table 2025 monday_2025_01_06 7 _)).
  exists 1%Z. split; [left; reflexivity |].
  rewrite fixed_rng_room. apply in_or_app. right. apply in_or_app. left.
  exact (frame_map_row
           (fun ts => np_round
                        (fst (lux_sample (rng := fixed_rng z u) ts tt)) 1)
           _ _ ts Hts).
Qed.

Lemma monday_06_00_in_grid :
  In monday_06_00 (generate_time_index monday_2025_01_06 7 freq_15T).
Proof. apply (week_grid_has monday_2025_01_06 24). lia. Qed.

Lemma monday_00_00_in_grid :
  In monday_2025_01_06 (generate_time_index monday_2025_01_06 7 freq_15T).
Proof. apply (week_grid_has monday_2025_01_06 0). lia. Qed.

Lemma monday_12_00_in_grid :
  In monday_12_00 (generate_time_index monday_2025_01_06 7 freq_15T).
Proof. apply (week_grid_has monday_2025_01_06 48). lia. Qed.

(** With a normal variate of minus two standard deviations the ambient
    level [50 + 30 * z] falls below zero and is floored. *)
Lemma lux_floor_at_06_00 (u : R) :
  fst (lux_sample (rng := fixed_rng (-2) u) monday_06_00 tt) = 0.
Proof.
  assert (Hn : is_night monday_06_00 = false) by reflexivity.
  assert (Hw : is_work_hour monday_06_00 = false) by reflexivity.
  unfold lux_sample, bind, ret. rewrite Hn, Hw.
  cbn [normal fixed_rng fst].
  rewrite (py_max_absorb 0 (50 + (0 + 30 * -2))) by lra.
  rewrite py_max_absorb by lra. lra.
Qed.

(** C1, as stated, fails: a run whose normal variates sit two standard
    deviations below the mean emits 0 lux at Monday 06:00, which is not a
    night hour. *)
Lemma illuminance_zero_by_day :
  In (mkRow monday_06_00 (sensor_label "lux" 1) 0)
     (main (rng := fixed_rng (-2) (1 / 2)) monday_2025_01_06) /\
  sensor_label "lux" 1 = "lux_1"%string /\
  hour monday_06_00 = 6%Z /\
  is_night monday_06_00 = false.
Proof.
  split; [| split; [reflexivity | split; reflexivity]].
  pose proof (fixed_rng_lux_row (-2) (1 / 2) monday_06_00
                monday_06_00_in_grid) as Hrow.
  rewrite lux_floor_at_06_00, np_round_zero in Hrow.
  exact Hrow.
Qed.

Lemma illuminance_night_zero_witness :
  In (mkRow monday_2025_01_06 "lux_1" 0)
     (simulate_for_room (rng := fixed_rng 0 (1 / 2)) 1
        (generate_time_index monday_2025_01_06 7 freq_15T) 2025) /\
  0 <= 0 /\ (is_night monday_2025_01_06 = true -> 0 = 0).
Proof.
  assert (Hin : In (mkRow monday_2025_01_06 "lux_1" 0)
                  (simulate_for_room (rng := fixed_rng 0 (1 / 2)) 1
                     (generate_time_index monday_2025_01_06 7 freq_15T)
                     2025)).
  { rewrite fixed_rng_room. apply in_or_app. right. apply in_or_app. left.
    pose proof (frame_map_row
                  (fun ts => np_round
                               (fst (lux_sample (rng := fixed_rng 0 (1 / 2))
                                       ts tt)) 1)
                  _ (sensor_label "lux" 1) _ monday_00_00_in_grid) as Hrow.
    cbv beta in Hrow.
    rewrite lux_sample_night in Hrow by reflexivity.
    cbn [fst] in Hrow. rewrite np_round_zero in Hrow. exact Hrow. }
  split; [exact Hin |].
  exact (illuminance_night_zero 1 _ 2025 _ Hin eq_refl).
Defined.

(** ** Instances on the week of Monday 2025-01-06 *)

Lemma np_round_exact (k : Z) (d : nat) :
  np_round (IZR k / 10 ^ d) d = IZR k / 10 ^ d.
Proof.
  unfold np_round. pose proof (pow10_pos d) as Hp.
  replace (IZR k / 10 ^ d * 10 ^ d) with (IZR k) by (field; lra).
  now rewrite rint_IZR.
Qed.

(** With all variates at their mean the Monday noon sample is the peak of
    the baseline plus the work-hour uplift. *)
Lemma temp_at_monday_noon (u : R) :
  fst (temp_sample (rng := fixed_rng 0 u) monday_12_00 tt) = 25.6.
Proof.
  assert (Hw : is_work_hour monday_12_00 = true) by reflexivity.
  assert (Hn : is_night monday_12_00 = false) by reflexivity.
  unfold temp_sample, temp_raw, bind, ret. rewrite Hw, Hn.
  cbn [normal fixed_rng fst]. rewrite baseline_at_monday_noon.
  unfold py_max, py_min.
  repeat destruct (Rlt_dec _ _); lra.
Qed.

Lemma temperature_in_range_witness :
  In (mkRow monday_12_00 "temp_1" 25.6)
     (simulate_for_room (rng := fixed_rng 0 (1 / 2)) 1
        (generate_time_index monday_2025_01_06 7 freq_15T) 2025) /\
  17.0 <= 25.6 <= 28.0.
Proof.
  assert (Hin : In (mkRow monday_12_00 "temp_1" 25.6)
                  (simulate_for_room (rng := fixed_rng 0 (1 / 2)) 1
                     (generate_time_index monday_2025_01_06 7 freq_15T)
                     2025)).
  { rewrite fixed_rng_room. apply in_or_app. left.
    pose proof (frame_map_row
                  (fun ts => np_round
                               (fst (temp_sample (rng := fixed_rng 0 (1 / 2))
                                       ts tt)) 2)
                  _ (sensor_label "temp" 1) _ monday_12_00_in_grid) as Hrow.
    cbv beta in Hrow. rewrite temp_at_monday_noon in Hrow.
    replace 25.6 with (IZR 2560 / 10 ^ 2) in Hrow at 1 by (simpl; lra).
    rewrite np_round_exact in Hrow.
    replace (IZR 2560 / 10 ^ 2) with 25.6 in Hrow by (simpl; lra).
    exact Hrow. }
  split; [exact Hin |].
  exact (temperature_in_range 1 _ 2025 _ Hin eq_refl).
Defined.

Lemma table_sorted_witness :
  exists ri rj,
    nth_error (main (rng := fixed_rng 0 (1 / 2)) monday_2025_01_06) 0
      = Some ri /\
    nth_error (main (rng := fixed_rng 0 (1 / 2)) monday_2025_01_06) 1
      = Some rj /\
    (timestamp ri <= timestamp rj)%Z.
Proof.
  unfold main.
  pose proof (build_table_length (rng := fixed_rng 0 (1 / 2)) 2025
                monday_2025_01_06 7) as Hlen.
  rewrite week_grid_length in Hlen.
  destruct (nth_error
              (build_table (rng := fixed_rng 0 (1 / 2)) 2025
                 monday_2025_01_06 7) 0) as [ri |] eqn:E0.
  2: { apply nth_error_None in E0. rewrite Hlen in E0. lia. }
  destruct (nth_error
              (build_table (rng := fixed_rng 0 (1 / 2)) 2025
                 monday_2025_01_06 7) 1) as [rj |] eqn:E1.
  2: { apply nth_error_None in E1. rewrite Hlen in E1. lia. }
  exists ri, rj. split; [reflexivity |]. split; [reflexivity |].
  destruct (table_sorted 2025 monday_2025_01_06 7 0 1 ri rj E0 E1)
    as [Hts _].
  apply Hts. lia.
Defined.


(** * Further properties of the simulator *)

(** ** The half-open range for any step *)

Local Open Scope Z_scope.

Lemma regular_range_points (start end_ stride : Z) :
  0 < stride -> start <= end_ ->
  generate_regular_range start end_ stride =
  map (fun k => start + Z.of_nat k * stride)
      (seq 0 (S (Z.to_nat ((end_ - start) / stride)))).
Proof.
  intros Hs Hle. unfold generate_regular_range.
  rewrite <- Z.add_assoc. apply arange_points; try assumption.
  - apply Z.div_pos; lia.
  - assert (0 <= stride / 2) by (apply Z.div_pos; lia).
    assert (stride / 2 < stride) by (apply Z.div_lt_upper_bound; lia).
    lia.
Qed.

Lemma regular_range_backwards (start end_ stride : Z) :
  0 < stride -> end_ < start ->
  generate_regular_range start end_ stride = [].
Proof.
  intros Hs Hlt. unfold generate_regular_range, arange.
  set (q := (end_ - start) / stride).
  assert (Hq : q <= -1).
  { subst q. apply Z.lt_succ_r. apply Z.div_lt_upper_bound; lia. }
  replace ((start + q * stride + stride / 2 + 1 - start + stride - 1)
           / stride) with (q + 1).
  - replace (Z.to_nat (q + 1)) with 0%nat by lia. reflexivity.
  - assert (0 <= stride / 2) by (apply Z.div_pos; lia).
    assert (stride / 2 < stride) by (apply Z.div_lt_upper_bound; lia).
    apply Z.div_unique with (r := stride / 2); [lia | ring].
Qed.

(** Whatever the end points, the range is an arithmetic progression from
    [start], of [grid_size] points. *)
Lemma date_range_left_progression (start end_ stride : Z) :
  0 < stride ->
  date_range_left start end_ stride =
  map (fun k => start + Z.of_nat k * stride)
      (seq 0 (grid_size start end_ stride)).
Proof.
  intros Hs. unfold date_range_left, grid_size.
  destruct (Z.eqb_spec start end_) as [<- | NE].
  - rewrite regular_range_points by lia.
    now rewrite Z.sub_diag, Z.div_0_l by lia.
  - destruct (Z.lt_ge_cases end_ start) as [Hlt | Hge].
    + rewrite regular_range_backwards by assumption.
      replace (Z.to_nat ((end_ - start + stride - 1) / stride)) with 0%nat;
        [reflexivity |].
      assert ((end_ - start + stride - 1) / stride < 1)
        by (apply Z.div_lt_upper_bound; lia).
      lia.
    + rewrite regular_range_points by assumption.
      set (q := (end_ - start) / stride).
      assert (Hq : 0 <= q) by (subst q; apply Z.div_pos; lia).
      pose proof (Z.div_mod (end_ - start) stride ltac:(lia)) as Hdm.
      pose proof (Z.mod_pos_bound (end_ - start) stride Hs) as Hm.
      fold q in Hdm.
      rewrite seq_S, map_app. cbn [map Nat.add].
      destruct (map _ (seq 0 (Z.to_nat q)) ++ _) eqn:E;
        [now apply app_eq_nil in E as [_ E] |].
      rewrite <- E, last_last, removelast_last. rewrite Z2Nat.id by lia.
      destruct (Z.eqb_spec (start + q * stride) end_) as [Eend | Nend].
      * replace ((end_ - start + stride - 1) / stride) with q;
          [reflexivity |].
        apply Z.div_unique with (r := stride - 1); lia.
      * replace ((end_ - start + stride - 1) / stride) with (q + 1).
        -- rewrite Z2Nat.inj_add, Nat.add_1_r by lia.
           rewrite seq_S, map_app. cbn [map Nat.add].
           now rewrite Z2Nat.id by lia.
        -- apply Z.div_unique with (r := (end_ - start) mod stride - 1);
             lia.
Qed.

Lemma generate_time_index_progression (start days freq : Z) :
  0 < freq ->
  generate_time_index start days freq =
  map (fun k => start + Z.of_nat k * freq)
      (seq 0 (grid_size start (start + timedelta_days days) freq)).
Proof. intros Hf. now apply date_range_left_progression. Qed.

(** X1: with a negative day count the end lies before the start and the
    grid is empty, for every positive step. *)
Theorem time_grid_negative_days (start days freq : Z) :
  0 < freq -> days < 0 -> generate_time_index start days freq = [].
Proof.
  intros Hf Hd. rewrite generate_time_index_progression by assumption.
  unfold grid_size, timedelta_days.
  assert (Hday : 0 < ns_per_day) by reflexivity.
  destruct (Z.eqb_spec start (start + days * ns_per_day)) as [E | _];
    [nia |].
  replace (Z.to_nat _) with 0%nat; [reflexivity |].
  assert ((start + days * ns_per_day - start + freq - 1) / freq < 1)
    by (apply Z.div_lt_upper_bound; nia).
  lia.
Qed.

Lemma time_grid_negative_days_witness :
  0 < freq_15T /\ -1 < 0 /\
  generate_time_index monday_2025_01_06 (-1) freq_15T = [].
Proof.
  split; [reflexivity |]. split; [reflexivity |].
  apply time_grid_negative_days; reflexivity.
Defined.

(** X2: for every positive step and every day count other than zero, an
    instant is in the grid exactly when it lies in the half-open interval
    from the start to the end and is a whole number of steps after the
    start. *)
Theorem time_grid_membership (start days freq t : Z) :
  0 < freq -> days <> 0 ->
  (In t (generate_time_index start days freq) <->
   start <= t < start + timedelta_days days /\ (t - start) mod freq = 0).
Proof.
  intros Hf Hd. rewrite generate_time_index_progression by assumption.
  rewrite in_progression. unfold grid_size, timedelta_days.
  assert (Hday : 0 < ns_per_day) by reflexivity.
  set (span := days * ns_per_day).
  assert (Hspan : span <> 0) by (subst span; nia).
  destruct (Z.eqb_spec start (start + span)) as [E | _]; [lia |].
  replace (start + span - start + freq - 1) with (span + freq - 1) by ring.
  set (c := (span + freq - 1) / freq).
  pose proof (Z.div_mod (span + freq - 1) freq ltac:(lia)) as Hdm.
  pose proof (Z.mod_pos_bound (span + freq - 1) freq Hf) as Hm.
  fold c in Hdm. split.
  - intros (k & Hk & ->).
    assert (Hkc : Z.of_nat k < c) by lia.
    replace (start + Z.of_nat k * freq - start) with (Z.of_nat k * freq)
      by ring.
    rewrite Z.mod_mul by lia. repeat split; nia.
  - intros ([Hlo Hhi] & Hmod).
    pose proof (Z.div_mod (t - start) freq ltac:(lia)) as Ht.
    rewrite Hmod, Z.add_0_r in Ht.
    set (k := (t - start) / freq) in *.
    assert (Hk0 : 0 <= k) by (subst k; apply Z.div_pos; lia).
    assert (Hkc : k < c) by nia.
    exists (Z.to_nat k). split; [lia |].
    rewrite Z2Nat.id by assumption. lia.
Qed.

Lemma time_grid_membership_witness :
  0 < freq_15T /\ 7 <> 0 /\
  In monday_12_00 (generate_time_index monday_2025_01_06 7 freq_15T).
Proof.
  split; [reflexivity |]. split; [discriminate |].
  apply time_grid_membership;
    [reflexivity | discriminate | vm_compute; repeat split; discriminate].
Defined.

(** ** The default anchor *)

Lemma default_start_fields (today : Timestamp) :
  weekday (default_start today) = 0 /\
  hour (default_start today) = 0 /\
  minute (default_start today) = 0 /\
  default_start today mod ns_per_day = 0 /\
  default_start today <= today < default_start today + 7 * ns_per_day.
Proof.
  unfold default_start, timedelta_days, weekday, hour, minute.
  cbv zeta.
  set (D := ns_per_day).
  assert (HD : D = 24 * ns_per_hour) by reflexivity.
  assert (HH : ns_per_hour = 60 * ns_per_minute) by reflexivity.
  assert (HM : 0 < ns_per_minute) by reflexivity.
  set (w := (today / D + 3) mod 7).
  assert (Hw : 0 <= w < 7) by (subst w; apply Z.mod_pos_bound; lia).
  assert (HDpos : 0 < D) by reflexivity.
  pose proof (Z.div_mod today D ltac:(lia)) as Hdm.
  pose proof (Z.mod_pos_bound today D HDpos) as Hr.
  set (d := today / D) in *.
  assert (Emod : (today - w * D) mod D = today mod D).
  { replace (today - w * D) with (today + (- w) * D) by ring.
    apply Z.mod_add. lia. }
  rewrite Emod.
  assert (Estart : today - w * D - today mod D = (d - w) * D) by lia.
  rewrite Estart.
  assert (Eday : (d - w) * D / D = d - w) by (apply Z.div_mul; lia).
  assert (Ehour : (d - w) * D / ns_per_hour = (d - w) * 24).
  { rewrite HD. replace ((d - w) * (24 * ns_per_hour))
      with ((d - w) * 24 * ns_per_hour) by ring.
    apply Z.div_mul. lia. }
  assert (Emin : (d - w) * D / ns_per_minute = (d - w) * 1440).
  { rewrite HD, HH.
    replace ((d - w) * (24 * (60 * ns_per_minute)))
      with ((d - w) * 1440 * ns_per_minute) by ring.
    apply Z.div_mul. lia. }
  rewrite Eday, Ehour, Emin.
  repeat split.
  - subst w. fold d.
    pose proof (Z.div_mod (d + 3) 7 ltac:(lia)) as H7.
    replace (d - (d + 3) mod 7 + 3) with (7 * ((d + 3) / 7)) by lia.
    rewrite Z.mul_comm. apply Z.mod_mul. lia.
  - apply Z.mod_mul. lia.
  - replace ((d - w) * 1440) with ((d - w) * 24 * 60) by ring.
    apply Z.mod_mul. lia.
  - apply Z.mod_mul. lia.
  - nia.
  - fold D. nia.
Qed.

(** X3: the start computed from the clock is a Monday at 00:00, it is not
    after the clock reading, and the clock reading falls within the seven
    days that follow it. *)
Theorem default_start_is_monday_midnight (today : Timestamp) :
  weekday (default_start today) = 0 /\
  hour (default_start today) = 0 /\
  minute (default_start today) = 0 /\
  default_start today mod ns_per_day = 0 /\
  default_start today <= today < default_start today + 7 * ns_per_day.
Proof. apply default_start_fields. Qed.


(** ** The calendar along a grid that starts at midnight *)

Lemma calendar_of_offset (m j : Z) :
  let ts := m * ns_per_day + j * freq_15T in
  ts / ns_per_day = m + j / 96 /\
  ts / ns_per_hour = 24 * m + j / 4 /\
  ts / ns_per_minute = 1440 * m + 15 * j.
Proof.
  cbv zeta. unfold freq_15T, ns_per_day, ns_per_hour.
  set (M := ns_per_minute). assert (HM : 0 < M) by reflexivity.
  repeat split.
  - replace (24 * (60 * M)) with (96 * (15 * M)) by ring.
    replace (m * (96 * (15 * M)) + j * (15 * M))
      with (j * (15 * M) + m * (96 * (15 * M))) by ring.
    rewrite Z.div_add by lia.
    rewrite Z.div_mul_cancel_r by lia. ring.
  - replace (60 * M) with (4 * (15 * M)) by ring.
    replace (m * (24 * (4 * (15 * M))) + j * (15 * M))
      with (j * (15 * M) + (24 * m) * (4 * (15 * M))) by ring.
    rewrite Z.div_add by lia.
    rewrite Z.div_mul_cancel_r by lia. ring.
  - replace (m * (24 * (60 * M)) + j * (15 * M))
      with ((1440 * m + 15 * j) * M) by ring.
    apply Z.div_mul. lia.
Qed.

Lemma midnight_offset_fields (start j : Z) :
  start mod ns_per_day = 0 ->
  weekday (start + j * freq_15T) = (weekday start + j / 96) mod 7 /\
  hour (start + j * freq_15T) = (j / 4) mod 24 /\
  minute (start + j * freq_15T) = 15 * (j mod 4).
Proof.
  intros Hmid.
  assert (HD : 0 < ns_per_day) by reflexivity.
  pose proof (Z.div_mod start ns_per_day ltac:(lia)) as Hdm.
  rewrite Hmid, Z.add_0_r in Hdm.
  set (m := start / ns_per_day) in *.
  assert (Es : start = m * ns_per_day) by lia.
  destruct (calendar_of_offset m j) as (Ed & Eh & Em).
  unfold weekday, hour, minute. fold m.
  rewrite Es, Ed, Eh, Em.
  replace (m * ns_per_day / ns_per_day) with m by (symmetry; apply Z.div_mul; lia).
  repeat split.
  - replace (m + j / 96 + 3) with (m + 3 + j / 96) by ring.
    rewrite Z.add_mod_idemp_l by lia. reflexivity.
  - replace (24 * m + j / 4) with (j / 4 + m * 24) by ring.
    apply Z.mod_add. lia.
  - replace (1440 * m + 15 * j) with (15 * j + (24 * m) * 60) by ring.
    rewrite Z.mod_add by lia.
    change 60 with (15 * 4). apply Z.mul_mod_distr_l; lia.
Qed.

Lemma nth_error_grid (start days : Z) (k : nat) (ts : Timestamp) :
  nth_error (generate_time_index start days freq_15T) k = Some ts ->
  ts = start + Z.of_nat k * freq_15T.
Proof.
  rewrite generate_time_index_progression by apply freq_15T_pos.
  intros Hk.
  assert (Hlt : (k < grid_size start (start + timedelta_days days) freq_15T)%nat).
  { pose proof (proj1 (nth_error_Some _ k)
                  ltac:(rewrite Hk; discriminate)) as Hb.
    now rewrite length_map, length_seq in Hb. }
  rewrite nth_error_progression in Hk by assumption.
  apply (f_equal (fun o => match o with Some v => v | None => 0 end)) in Hk.
  cbv beta iota in Hk. now symmetry.
Qed.

(** X4: when the start is a midnight, the entry at position [k] of the grid
    falls [k / 96] days after the start's weekday, at hour [(k / 4) mod 24]
    and minute [15 * (k mod 4)]. *)
Theorem midnight_grid_layout (start days : Z) (k : nat) (ts : Timestamp) :
  start mod ns_per_day = 0 ->
  nth_error (generate_time_index start days freq_15T) k = Some ts ->
  weekday ts = (weekday start + Z.of_nat k / 96) mod 7 /\
  hour ts = (Z.of_nat k / 4) mod 24 /\
  minute ts = 15 * (Z.of_nat k mod 4).
Proof.
  intros Hmid Hk. apply nth_error_grid in Hk. subst ts.
  now apply midnight_offset_fields.
Qed.

Lemma midnight_grid_layout_witness :
  monday_2025_01_06 mod ns_per_day = 0 /\
  nth_error (generate_time_index monday_2025_01_06 7 freq_15T) 130
    = Some (monday_2025_01_06 + 130 * freq_15T) /\
  weekday (monday_2025_01_06 + 130 * freq_15T) = 1 /\
  hour (monday_2025_01_06 + 130 * freq_15T) = 8 /\
  minute (monday_2025_01_06 + 130 * freq_15T) = 30.
Proof.
  split; [reflexivity |]. split; [reflexivity |].
  exact (midnight_grid_layout monday_2025_01_06 7 130
           (monday_2025_01_06 + 130 * freq_15T) eq_refl eq_refl).
Defined.

(** ** How many variates a room consumes *)









(** ** Periodicity of the classifiers *)

Lemma hour_add_days (ts k : Z) : hour (ts + k * ns_per_day) = hour ts.
Proof.
  unfold hour, ns_per_day.
  replace (ts + k * (24 * ns_per_hour)) with (ts + (k * 24) * ns_per_hour)
    by ring.
  rewrite Z.div_add by discriminate.
  apply Z.mod_add. discriminate.
Qed.

Lemma weekday_add_weeks (ts k : Z) :
  weekday (ts + k * (7 * ns_per_day)) = weekday ts.
Proof.
  unfold weekday.
  replace (ts + k * (7 * ns_per_day)) with (ts + (k * 7) * ns_per_day)
    by ring.
  rewrite Z.div_add by discriminate.
  replace (ts / ns_per_day + k * 7 + 3) with (ts / ns_per_day + 3 + k * 7)
    by ring.
  apply Z.mod_add. discriminate.
Qed.

(** X7: whether a timestamp is a night hour depends on the time of day
    alone, and whether it is a work hour, like the occupancy probability of
    the calendar, repeats from one week to the next. *)
Theorem classifiers_periodic (ts k : Z) :
  is_night (ts + k * ns_per_day) = is_night ts /\
  is_work_hour (ts + k * (7 * ns_per_day)) = is_work_hour ts /\
  occ_schedule (ts + k * (7 * ns_per_day)) = occ_schedule ts.
Proof.
  assert (Hh : hour (ts + k * (7 * ns_per_day)) = hour ts).
  { replace (k * (7 * ns_per_day)) with ((k * 7) * ns_per_day) by ring.
    apply hour_add_days. }
  unfold is_night, is_work_hour, occ_schedule.
  now rewrite hour_add_days, Hh, weekday_add_weeks.
Qed.

(** ** What a single sample can be *)

Local Open Scope R_scope.

Lemma occ_schedule_values (ts : Timestamp) :
  In (occ_schedule ts) [0.85; 0.35; 0.05; 0.03; 0.7].
Proof.
  unfold occ_schedule. cbn [In].
  destruct (weekday ts <? 5)%Z; [| tauto].
  destruct ((8 <=? hour ts)%Z && (hour ts <? 18)%Z); [tauto |].
  destruct (_ || _)%bool; tauto.
Qed.

Lemma occ_sample_resolved `{rng : NumpyRandom} (ts : Timestamp)
    (g : Generator) :
  exists p g1,
    In p [0.85; 0.35; 0.05; 0.03; 0.7] /\
    occ_sample ts g = (bernoulli (fst (random g1)) p, snd (random g1)).
Proof.
  pose proof (occ_schedule_values ts) as Hs.
  unfold occ_sample, bind, ret, bernoulli.
  destruct ((5 <=? weekday ts)%Z && ((10 <=? hour ts)%Z && (hour ts <? 14)%Z)).
  - destruct (random g) as [spike g1].
    destruct (Rlt_dec spike 0.06).
    + exists 0.7, g1. split; [cbn [In]; tauto |].
      now destruct (random g1).
    + exists (occ_schedule ts), g1. split; [exact Hs |].
      now destruct (random g1).
  - exists (occ_schedule ts), g. split; [exact Hs |].
    now destruct (random g).
Qed.

(** X8: at every timestamp the occupancy is a Bernoulli trial of the last
    uniform variate against one of the five probabilities of the schedule,
    all between 0.03 and 0.85; a variate of 0.85 or more always gives 0 and
    a variate below 0.03 always gives 1. *)
Theorem occupancy_probability_bounds `{rng : NumpyRandom} (ts : Timestamp)
    (g : Generator) :
  exists p g1,
    In p [0.85; 0.35; 0.05; 0.03; 0.7] /\ 0.03 <= p <= 0.85 /\
    occ_sample ts g = (bernoulli (fst (random g1)) p, snd (random g1)) /\
    (0.85 <= fst (random g1) -> fst (occ_sample ts g) = 0%Z) /\
    (fst (random g1) < 0.03 -> fst (occ_sample ts g) = 1%Z).
Proof.
  destruct (occ_sample_resolved ts g) as (p & g1 & Hp & E).
  exists p, g1.
  assert (Hr : 0.03 <= p <= 0.85).
  { cbn [In] in Hp.
    destruct Hp as [<- | [<- | [<- | [<- | [<- | []]]]]]; lra. }
  split; [exact Hp |]. split; [exact Hr |]. split; [exact E |].
  rewrite E. cbn [fst]. unfold bernoulli.
  split; intros Hu; destruct (Rlt_dec (fst (random g1)) p);
    try reflexivity; lra.
Qed.

(** X9: by day the unrounded illuminance is zero exactly when the draw is
    at or below minus the base level: 500 in work hours, 50 outside them;
    otherwise it is the base level plus the draw. *)
Theorem lux_sample_zero_iff `{rng : NumpyRandom} (ts : Timestamp)
    (g : Generator) :
  is_night ts = false ->
  let base := if is_work_hour ts then 500 else 50 in
  let n := fst (normal 0 (if is_work_hour ts then 60 else 30) g) in
  (fst (lux_sample ts g) = 0 <-> n <= - base) /\
  (- base < n -> fst (lux_sample ts g) = base + n).
Proof.
  intros Hn. cbv zeta. unfold lux_sample, bind, ret. rewrite Hn.
  destruct (is_work_hour ts).
  - destruct (normal 0 60 g) as [n g']. cbn [fst].
    unfold py_max. destruct (Rlt_dec 0.0 (500 + n)); split;
      try split; intros; lra.
  - destruct (normal 0 30 g) as [n g']. cbn [fst].
    unfold py_max. destruct (Rlt_dec 0 (50 + n));
      destruct (Rlt_dec 0.0 _); split; try split; intros; lra.
Qed.

Lemma lux_sample_zero_iff_witness :
  is_night monday_06_00 = false /\
  (fst (lux_sample (rng := fixed_rng (-2) (1 / 2)) monday_06_00 tt) = 0 <->
   0 + 30 * -2 <= - 50).
Proof.
  split; [reflexivity |].
  exact (proj1 (lux_sample_zero_iff (rng := fixed_rng (-2) (1 / 2))
                  monday_06_00 tt eq_refl)).
Defined.

(** X10: when every noise draw of the temperature model stays within one
    degree of its mean, the sample before clamping already lies between
    17.0 and 27.6, so the clamp leaves it unchanged. *)
Theorem clamp_inactive_for_moderate_noise `{rng : NumpyRandom}
    (ts : Timestamp) (g : Generator) :
  (forall g', -1 <= fst (normal 0 0.2 g') <= 1) ->
  (forall g', -1 <= fst (normal 0 0.3 g') <= 1) ->
  17.0 <= fst (temp_raw ts g) <= 27.6 /\
  fst (temp_sample ts g) = fst (temp_raw ts g).
Proof.
  intros H2 H3.
  assert (Hraw : 17.0 <= fst (temp_raw ts g) <= 27.6).
  { pose proof (daily_baseline_bounds ts) as Hb.
    pose proof (work_hour_excludes_night ts) as Hex.
    unfold temp_raw, bind, ret.
    destruct (is_work_hour ts).
    - rewrite Hex by reflexivity.
      pose proof (H2 g) as Hn1. destruct (normal 0 0.2 g) as [n1 g1].
      pose proof (H3 g1) as Hn2. destruct (normal 0 0.3 g1) as [n2 g2].
      cbn [fst] in *. lra.
    - destruct (is_night ts).
      + pose proof (H2 g) as Hn1. destruct (normal 0 0.2 g) as [n1 g1].
        pose proof (H3 g1) as Hn2. destruct (normal 0 0.3 g1) as [n2 g2].
        cbn [fst] in *. lra.
      + pose proof (H3 g) as Hn2. destruct (normal 0 0.3 g) as [n2 g2].
        cbn [fst] in *. lra. }
  split; [exact Hraw |].
  unfold temp_sample, bind, ret.
  destruct (temp_raw ts g) as [val g']. cbn [fst] in *.
  unfold py_max, py_min.
  destruct (Rlt_dec val 28.0); destruct (Rlt_dec 17.0 _); lra.
Qed.

Lemma clamp_inactive_for_moderate_noise_witness :
  fst (temp_sample (rng := fixed_rng 0 (1 / 2)) monday_12_00 tt) =
  fst (temp_raw (rng := fixed_rng 0 (1 / 2)) monday_12_00 tt).
Proof.
  apply (clamp_inactive_for_moderate_noise (rng := fixed_rng 0 (1 / 2))
           monday_12_00 tt);
    intros g'; cbn [normal fixed_rng fst]; lra.
Defined.

(** ** The table as a whole *)

Lemma frame_row_timestamp (time_index : list Timestamp) (label : string)
    (values : list R) (r : Row) :
  In r (frame time_index label values) -> In (timestamp r) time_index.
Proof.
  unfold frame. intros Hr.
  apply in_map_iff in Hr as ([ts v] & <- & Hin).
  now apply in_combine_l in Hin.
Qed.

Lemma simulate_for_room_timestamps `{rng : NumpyRandom} (room_id : Z)
    (time_index : list Timestamp) (seed_base : Z) (r : Row) :
  In r (simulate_for_room room_id time_index seed_base) ->
  In (timestamp r) time_index.
Proof.
  rewrite simulate_for_room_unfold. cbv zeta. rewrite !in_app_iff.
  intros [Hr | [Hr | Hr]]; now apply frame_row_timestamp in Hr.
Qed.

Lemma simulate_for_room_ranges `{rng : NumpyRandom} (room_id : Z)
    (time_index : list Timestamp) (seed_base : Z) (r : Row) :
  In r (simulate_for_room room_id time_index seed_base) ->
  (sensor_id r = sensor_label "temp" room_id /\ 17.0 <= valor r <= 28.0) \/
  (sensor_id r = sensor_label "lux" room_id /\ 0 <= valor r /\
   (is_night (timestamp r) = true -> valor r = 0)) \/
  (sensor_id r = sensor_label "occ" room_id /\
   (valor r = 0 \/ valor r = 1)).
Proof.
  intros Hr.
  destruct (simulate_for_room_rows
              (fun _ v => 17.0 <= v <= 28.0)
              (fun ts v => 0 <= v /\ (is_night ts = true -> v = 0))
              (fun _ n => n = 0%Z \/ n = 1%Z)
              room_id time_index seed_base temp_sample_range)
    with (r := r)
    as [(Hid & v & Hv & ->) | [(Hid & v & [Hv Hn] & ->)
                              | (Hid & n & Hn & ->)]].
  - intros ts g. split; [apply lux_sample_nonneg |].
    intros Hn. now rewrite lux_sample_night.
  - apply occ_sample_binary.
  - exact Hr.
  - left. split; [exact Hid | now apply np_round_temp_range].
  - right. left. split; [exact Hid |].
    split; [now apply np_round_nonneg |].
    intros Hnight. rewrite (Hn Hnight). apply np_round_zero.
  - right. right. split; [exact Hid |].
    destruct Hn as [-> | ->]; [now left | now right].
Qed.

(** X11: sorting only reorders: the table of a run is a permutation of the
    frames of rooms 1, 2 and 3 put end to end, so no row is lost and none
    is repeated. *)
Theorem table_is_permutation_of_frames `{rng : NumpyRandom} (seed_base : Z)
    (start : Timestamp) (days : Z) :
  Permutation
    (simulate_for_room 1 (generate_time_index start days freq_15T) seed_base
     ++ simulate_for_room 2 (generate_time_index start days freq_15T)
          seed_base
     ++ simulate_for_room 3 (generate_time_index start days freq_15T)
          seed_base)
    (build_table seed_base start days) /\
  List.length (build_table seed_base start days) =
  (9 * List.length (generate_time_index start days freq_15T))%nat.
Proof.
  split; [apply build_table_perm |].
  rewrite build_table_length. lia.
Qed.

(** X12: every row of the table carries a timestamp of the grid, the
    identifier of one of the three sensors of room 1, 2 or 3, and a value in
    that sensor's range: 17.0 to 28.0 for temperature, at least 0 and exactly
    0 at night for illuminance, 0 or 1 for occupancy. *)
Theorem table_rows_sound `{rng : NumpyRandom} (seed_base : Z)
    (start : Timestamp) (days : Z) (r : Row) :
  In r (build_table seed_base start days) ->
  In (timestamp r) (generate_time_index start days freq_15T) /\
  exists room, In room [1; 2; 3]%Z /\
    ((sensor_id r = sensor_label "temp" room /\ 17.0 <= valor r <= 28.0) \/
     (sensor_id r = sensor_label "lux" room /\ 0 <= valor r /\
      (is_night (timestamp r) = true -> valor r = 0)) \/
     (sensor_id r = sensor_label "occ" room /\
      (valor r = 0 \/ valor r = 1))).
Proof.
  intros Hr.
  apply (proj1 (in_build_table seed_base start days r)) in Hr
    as (room & Hroom & Hr).
  split; [now apply simulate_for_room_timestamps in Hr |].
  exists room. split; [exact Hroom |].
  exact (simulate_for_room_ranges room _ seed_base r Hr).
Qed.

Lemma fixed_rng_lux_row_in_table (z u : R) (ts : Timestamp) :
  In ts (generate_time_index monday_2025_01_06 7 freq_15T) ->
  In (mkRow ts (sensor_label "lux" 1)
        (np_round (fst (lux_sample (rng := fixed_rng z u) ts tt)) 1))
     (build_table (rng := fixed_rng z u) 2025 monday_2025_01_06 7).
Proof.
  intros Hts.
  apply (proj2 (in_build_table 2025 monday_2025_01_06 7 _)).
  exists 1%Z. split; [left; reflexivity |].
  rewrite fixed_rng_room. apply in_or_app. right. apply in_or_app. left.
  exact (frame_map_row
           (fun ts => np_round
                        (fst (lux_sample (rng := fixed_rng z u) ts tt)) 1)
           _ _ ts Hts).
Qed.

Lemma lux_row_monday_06_00 :
  In (mkRow monday_06_00 (sensor_label "lux" 1) 0)
     (build_table (rng := fixed_rng (-2) (1 / 2)) 2025 monday_2025_01_06 7).
Proof.
  pose proof (fixed_rng_lux_row_in_table (-2) (1 / 2) monday_06_00
                monday_06_00_in_grid) as Hrow.
  rewrite lux_floor_at_06_00, np_round_zero in Hrow. exact Hrow.
Qed.

Lemma table_rows_sound_witness :
  In (mkRow monday_06_00 (sensor_label "lux" 1) 0)
     (build_table (rng := fixed_rng (-2) (1 / 2)) 2025 monday_2025_01_06 7)
  /\ In monday_06_00 (generate_time_index monday_2025_01_06 7 freq_15T).
Proof.
  split; [exact lux_row_monday_06_00 |].
  exact (proj1 (table_rows_sound 2025 monday_2025_01_06 7 _
                  lux_row_monday_06_00)).
Defined.

Lemma sensor_ids_unfold :
  sensor_ids =
  [sensor_label "temp" 1; sensor_label "lux" 1; sensor_label "occ" 1;
   sensor_label "temp" 2; sensor_label "lux" 2; sensor_label "occ" 2;
   sensor_label "temp" 3; sensor_label "lux" 3; sensor_label "occ" 3].
Proof. reflexivity. Qed.

(** X13: the table is complete: for every timestamp of the grid and each of
    the nine sensor identifiers there is a row. *)
Theorem table_complete `{rng : NumpyRandom} (seed_base : Z)
    (start : Timestamp) (days : Z) (ts : Timestamp) (sid : string) :
  In ts (generate_time_index start days freq_15T) ->
  In sid sensor_ids ->
  exists v, In (mkRow ts sid v) (build_table seed_base start days).
Proof.
  intros Hts Hsid. rewrite sensor_ids_unfold in Hsid.
  assert (Hrow : forall room kind,
             In room [1; 2; 3]%Z ->
             In kind ["temp"; "lux"; "occ"]%string ->
             exists v, In (mkRow ts (sensor_label kind room) v)
                          (build_table seed_base start days)).
  { intros room kind Hroom Hkind.
    destruct (simulate_for_room_has_rows room _ seed_base ts Hts kind Hkind)
      as [v Hv].
    exists v. apply (proj2 (in_build_table seed_base start days _)).
    exists room. split; assumption. }
  cbn [In] in Hsid.
  destruct Hsid as [<- | [<- | [<- | [<- | [<- | [<- | [<- | [<- | [<- | []]]]]]]]]];
    apply Hrow; cbn [In]; tauto.
Qed.

Lemma table_complete_witness :
  In monday_12_00 (generate_time_index monday_2025_01_06 7 freq_15T) /\
  In "occ_2"%string sensor_ids /\
  exists v, In (mkRow monday_12_00 "occ_2" v)
              (build_table (rng := fixed_rng 0 (1 / 2)) 2025
                 monday_2025_01_06 7).
Proof.
  assert (Hsid : In "occ_2"%string sensor_ids).
  { vm_compute. tauto. }
  split; [exact monday_12_00_in_grid |]. split; [exact Hsid |].
  exact (table_complete 2025 monday_2025_01_06 7 monday_12_00 "occ_2"
           monday_12_00_in_grid Hsid).
Defined.

(** *** One row per timestamp and sensor *)

Lemma increasing_NoDup (l : list Z) : StronglySorted Z.lt l -> NoDup l.
Proof.
  induction 1 as [| x l Hs IH Hx]; constructor; [| exact IH].
  intros Hin. rewrite Forall_forall in Hx. specialize (Hx x Hin). lia.
Qed.

Lemma generate_time_index_NoDup (start days : Z) :
  NoDup (generate_time_index start days freq_15T).
Proof.
  rewrite generate_time_index_progression by apply freq_15T_pos.
  apply increasing_NoDup, progression_increasing, freq_15T_pos.
Qed.

Lemma frame_keys (time_index : list Timestamp) (label : string)
    (values : list R) :
  List.length values = List.length time_index ->
  map row_key (frame time_index label values) =
  map (fun ts => (ts, label)) time_index.
Proof.
  revert values. unfold frame.
  induction time_index as [| ts l IH]; intros [| v vs] E;
    try discriminate; [reflexivity |].
  cbn [combine map fst snd]. unfold row_key at 1. cbn [timestamp sensor_id].
  f_equal. apply IH. now injection E.
Qed.

Lemma simulate_for_room_keys `{rng : NumpyRandom} (room_id : Z)
    (time_index : list Timestamp) (seed_base : Z) :
  map row_key (simulate_for_room room_id time_index seed_base) =
  flat_map (fun sid => map (fun ts => (ts, sid)) time_index)
    [sensor_label "temp" room_id; sensor_label "lux" room_id;
     sensor_label "occ" room_id].
Proof.
  rewrite simulate_for_room_unfold. cbv zeta.
  rewrite !map_app, !frame_keys
    by (rewrite length_map; apply for_each_length).
  cbn [flat_map]. now rewrite app_nil_r.
Qed.

Lemma keys_NoDup (time_index : list Timestamp) (sids : list string) :
  NoDup time_index -> NoDup sids ->
  NoDup (flat_map (fun sid => map (fun ts => (ts, sid)) time_index) sids).
Proof.
  intros Hti Hs. induction Hs as [| sid sids Hnot Hs IH]; cbn [flat_map].
  - constructor.
  - apply NoDup_app.
    + apply Finite.Injective_map_NoDup; [| exact Hti].
      intros a b E. now injection E.
    + exact IH.
    + intros [ts s] Hin1 Hin2.
      apply in_map_iff in Hin1 as (t1 & E1 & _). injection E1 as _ <-.
      apply in_flat_map in Hin2 as (s2 & Hs2 & Hin2).
      apply in_map_iff in Hin2 as (t2 & E2 & _). injection E2 as _ <-.
      contradiction.
Qed.

Lemma sensor_ids_NoDup : NoDup sensor_ids.
Proof.
  vm_compute.
  repeat (constructor; [cbn [In]; intuition discriminate |]).
  constructor.
Qed.

(** X14: no two rows of the table share both timestamp and sensor
    identifier, whatever the start and the day count. *)
Theorem table_keys_unique `{rng : NumpyRandom} (seed_base : Z)
    (start : Timestamp) (days : Z) :
  NoDup (map row_key (build_table seed_base start days)).
Proof.
  pose proof (build_table_perm seed_base start days) as HP. cbv zeta in HP.
  apply (Permutation_NoDup (Permutation_map row_key HP)).
  rewrite !map_app, !simulate_for_room_keys, <- !flat_map_app.
  apply keys_NoDup; [apply generate_time_index_NoDup |].
  exact sensor_ids_NoDup.
Qed.

(** *** The decimals of the emitted values *)

Lemma pow10_2 : 10 ^ 2 = 100.
Proof. simpl. lra. Qed.

Lemma pow10_1 : 10 ^ 1 = 10.
Proof. simpl. lra. Qed.

(** X15: a temperature value is a whole number of hundredths, between 1700
    and 2800 of them, and an illuminance value is a whole, non-negative
    number of tenths. *)
Theorem emitted_values_decimals `{rng : NumpyRandom} (room_id : Z)
    (time_index : list Timestamp) (seed_base : Z) (r : Row) :
  In r (simulate_for_room room_id time_index seed_base) ->
  (sensor_id r = sensor_label "temp" room_id ->
   exists k, (1700 <= k <= 2800)%Z /\ valor r = IZR k / 100) /\
  (sensor_id r = sensor_label "lux" room_id ->
   exists k, (0 <= k)%Z /\ valor r = IZR k / 10).
Proof.
  intros Hr.
  destruct (simulate_for_room_rows
              (fun _ v => 17.0 <= v <= 28.0) (fun _ v => 0 <= v)
              (fun _ _ => True) room_id time_index seed_base
              temp_sample_range lux_sample_nonneg (fun _ _ => I) r Hr)
    as [(Hid & v & Hv & E) | [(Hid & v & Hv & E) | (Hid & _)]].
  - split; intros Hid'.
    + exists (rint (v * 10 ^ 2)). split.
      * rewrite pow10_2.
        split; [apply rint_lower | apply rint_upper]; lra.
      * rewrite E. unfold np_round. now rewrite pow10_2.
    + rewrite Hid in Hid'. now apply sensor_label_temp_lux in Hid'.
  - split; intros Hid'.
    + rewrite Hid in Hid'. symmetry in Hid'.
      now apply sensor_label_temp_lux in Hid'.
    + exists (rint (v * 10 ^ 1)). split.
      * rewrite pow10_1. apply rint_lower. lra.
      * rewrite E. unfold np_round. now rewrite pow10_1.
  - split; intros Hid'; rewrite Hid in Hid'; symmetry in Hid'.
    + now apply sensor_label_temp_occ in Hid'.
    + now apply sensor_label_lux_occ in Hid'.
Qed.

Lemma temp_row_monday_noon :
  In (mkRow monday_12_00 (sensor_label "temp" 1) 25.6)
     (simulate_for_room (rng := fixed_rng 0 (1 / 2)) 1
        (generate_time_index monday_2025_01_06 7 freq_15T) 2025).
Proof.
  rewrite fixed_rng_room. apply in_or_app. left.
  pose proof (frame_map_row
                (fun ts => np_round
                             (fst (temp_sample (rng := fixed_rng 0 (1 / 2))
                                     ts tt)) 2)
                _ (sensor_label "temp" 1) _ monday_12_00_in_grid) as Hrow.
  cbv beta in Hrow. rewrite temp_at_monday_noon in Hrow.
  replace 25.6 with (IZR 2560 / 10 ^ 2) in Hrow at 1
    by (rewrite pow10_2; lra).
  rewrite np_round_exact in Hrow.
  replace (IZR 2560 / 10 ^ 2) with 25.6 in Hrow by (rewrite pow10_2; lra).
  exact Hrow.
Qed.

Lemma emitted_values_decimals_witness :
  In (mkRow monday_12_00 (sensor_label "temp" 1) 25.6)
     (simulate_for_room (rng := fixed_rng 0 (1 / 2)) 1
        (generate_time_index monday_2025_01_06 7 freq_15T) 2025) /\
  exists k, (1700 <= k <= 2800)%Z /\ 25.6 = IZR k / 100.
Proof.
  split; [exact temp_row_monday_noon |].
  exact (proj1 (emitted_values_decimals (rng := fixed_rng 0 (1 / 2)) 1 _
                  2025 _ temp_row_monday_noon) eq_refl).
Defined.

(** *** The first row *)

Lemma grid_lower_bound (start days t : Z) :
  In t (generate_time_index start days freq_15T) ->
  (start <= t)%Z /\ In start (generate_time_index start days freq_15T).
Proof.
  rewrite generate_time_index_progression by apply freq_15T_pos.
  rewrite !in_progression. intros (k & Hk & ->).
  pose proof freq_15T_pos. split; [nia |].
  exists 0%nat. split; [lia | cbn; ring].
Qed.

Lemma first_row_of_table `{rng : NumpyRandom} (seed_base : Z)
    (start : Timestamp) (days : Z) (r : Row) :
  nth_error (build_table seed_base start days) 0 = Some r ->
  timestamp r = start /\ sensor_id r = "lux_1"%string /\
  (is_night start = true -> valor r = 0).
Proof.
  intros H0.
  assert (Hr : In r (build_table seed_base start days))
    by (eapply nth_error_In; exact H0).
  apply (proj1 (in_build_table seed_base start days r)) in Hr
    as (room & Hroom & Hr).
  pose proof (simulate_for_room_timestamps _ _ _ _ Hr) as Hts.
  apply grid_lower_bound in Hts as [Hlo Hstart].
  destruct (simulate_for_room_has_rows 1 _ seed_base start Hstart
              "lux"%string) as [v Hv]; [cbn [In]; tauto |].
  assert (Hv' : In (mkRow start (sensor_label "lux" 1) v)
                  (build_table seed_base start days)).
  { apply (proj2 (in_build_table seed_base start days _)).
    exists 1%Z. split; [cbn [In]; tauto | exact Hv]. }
  apply In_nth_error in Hv' as [j Hj].
  assert (Hkey : timestamp r = start /\ sensor_id r = "lux_1"%string).
  { destruct j as [| j].
    - rewrite H0 in Hj. injection Hj as ->. split; reflexivity.
    - pose proof (sorted_positions row_le _
                    (sort_values_sorted _ : StronglySorted row_le
                       (build_table seed_base start days))
                    0%nat (S j) r _ ltac:(lia) H0 Hj) as Hle.
      unfold row_le, row_leb in Hle. cbn [timestamp sensor_id] in Hle.
      apply orb_true_iff in Hle as [Hlt | Heq];
        [apply Z.ltb_lt in Hlt; lia |].
      apply andb_true_iff in Heq as [Heq Hleb]. apply Z.eqb_eq in Heq.
      split; [exact Heq |].
      destruct (simulate_for_room_ranges _ _ _ _ Hr)
        as [(Hid & _) | [(Hid & _) | (Hid & _)]];
        rewrite Hid in Hleb |- *;
        cbn [In] in Hroom;
        destruct Hroom as [<- | [<- | [<- | []]]];
        first [reflexivity | vm_compute in Hleb; discriminate Hleb]. }
  destruct Hkey as [Ets Eid]. split; [exact Ets |]. split; [exact Eid |].
  intros Hnight.
  destruct (simulate_for_room_ranges _ _ _ _ Hr)
    as [(Hid & _) | [(_ & _ & Hn) | (Hid & _)]].
  - rewrite Eid in Hid. cbn [In] in Hroom.
    destruct Hroom as [<- | [<- | [<- | []]]]; vm_compute in Hid;
      discriminate Hid.
  - apply Hn. now rewrite Ets.
  - rewrite Eid in Hid. cbn [In] in Hroom.
    destruct Hroom as [<- | [<- | [<- | []]]]; vm_compute in Hid;
      discriminate Hid.
Qed.

(** X16: the first row of a table that has rows is the illuminance of room
    1 at the start instant, and its value is 0 when the start is a night
    hour. *)
Theorem table_first_row `{rng : NumpyRandom} (seed_base : Z)
    (start : Timestamp) (days : Z) (r : Row) :
  nth_error (build_table seed_base start days) 0 = Some r ->
  timestamp r = start /\ sensor_id r = "lux_1"%string /\
  (is_night start = true -> valor r = 0).
Proof. apply first_row_of_table. Qed.


Lemma table_first_row_witness :
  exists r,
    nth_error (build_table (rng := fixed_rng 0 (1 / 2)) 2025
                 monday_2025_01_06 7) 0 = Some r /\
    timestamp r = monday_2025_01_06 /\ sensor_id r = "lux_1"%string.
Proof.
  pose proof (build_table_length (rng := fixed_rng 0 (1 / 2)) 2025
                monday_2025_01_06 7) as Hlen.
  rewrite week_grid_length in Hlen.
  destruct (nth_error
              (build_table (rng := fixed_rng 0 (1 / 2)) 2025
                 monday_2025_01_06 7) 0) as [r |] eqn:E0.
  2: { apply nth_error_None in E0. rewrite Hlen in E0. lia. }
  exists r. split; [reflexivity |].
  destruct (table_first_row 2025 monday_2025_01_06 7 r E0) as (Ets & Eid & _).
  split; assumption.
Defined.

(** ** A run anchored by the clock *)

(** X17: called without a start, [main] produces the 6048 rows of the week
    that contains the clock reading: every timestamp lies in the seven days
    from that week's Monday 00:00, on a quarter of an hour, and the first
    row is the illuminance of room 1 at Monday 00:00, with value 0. *)
Theorem default_run `{rng : NumpyRandom} (today : Timestamp) :
  let monday := default_start today in
  Z.of_nat (List.length (main_at None today)) = 6048%Z /\
  (monday <= today < monday + 7 * ns_per_day)%Z /\
  (forall r, In r (main_at None today) ->
     (monday <= timestamp r < monday + 7 * ns_per_day)%Z /\
     In (minute (timestamp r)) [0; 15; 30; 45]%Z) /\
  (forall r, nth_error (main_at None today) 0 = Some r ->
     r = mkRow monday "lux_1" 0).
Proof.
  cbv zeta. unfold main_at, main.
  destruct (default_start_fields today) as (Hw & Hh & _ & Hmid & Hnow).
  split; [| split; [exact Hnow | split]].
  - now rewrite build_table_length, week_grid_length.
  - intros r Hr.
    apply (proj1 (in_build_table _ _ _ r)) in Hr as (room & _ & Hr).
    apply simulate_for_room_timestamps in Hr.
    rewrite generate_time_index_points in Hr by lia.
    apply in_progression in Hr as (k & Hk & ->).
    destruct (midnight_offset_fields (default_start today) (Z.of_nat k) Hmid)
      as (_ & _ & Em).
    rewrite Em. split.
    + assert (Hk' : (Z.of_nat k < 672)%Z) by lia.
      unfold freq_15T, ns_per_day, ns_per_hour.
      assert (0 < ns_per_minute)%Z by reflexivity. nia.
    + pose proof (Z.mod_pos_bound (Z.of_nat k) 4 ltac:(lia)) as Hm4.
      cbn [In].
      assert (Hc : (Z.of_nat k mod 4 = 0 \/ Z.of_nat k mod 4 = 1 \/
                    Z.of_nat k mod 4 = 2 \/ Z.of_nat k mod 4 = 3)%Z) by lia.
      destruct Hc as [-> | [-> | [-> | ->]]]; cbn; tauto.
  - intros r H0.
    destruct (first_row_of_table _ _ _ r H0) as (Ets & Eid & Hval).
    assert (Hn : is_night (default_start today) = true)
      by (unfold is_night; now rewrite Hh).
    specialize (Hval Hn). destruct r as [ts sid v].
    cbn [timestamp sensor_id valor] in *. now subst.
Qed.

(** * Two runs, and one stream per room *)

(** ** Generators that deliver the same variates *)

Section SameVariates.
Variables rng1 rng2 : NumpyRandom.
Variable sim : @Generator rng1 -> @Generator rng2 -> Prop.

Hypothesis sim_normal : forall loc scale g1 g2, sim g1 g2 ->
  fst (normal loc scale g1) = fst (normal loc scale g2) /\
  sim (snd (normal loc scale g1)) (snd (normal loc scale g2)).

Hypothesis sim_random : forall g1 g2, sim g1 g2 ->
  fst (random g1) = fst (random g2) /\
  sim (snd (random g1)) (snd (random g2)).












End SameVariates.

(** ** Two runs *)



(** ** One stream per room *)










